(** * A shallow embedding of the svelte-preprocess dispatcher
    ([autoPreprocess] in src/src/transformers/scss.ts) and of the parts of
    its modules that the dispatcher relies on. *)

From Stdlib Require Import NArith Arith Lia.
From Stdlib Require Strings.String Strings.Ascii.
From stdpp Require Import base gmap list strings.


(** ** JavaScript strings

    A JavaScript string is a sequence of UTF-16 code units; regular
    expressions without the [u] flag and [String.prototype.slice] work on
    code units. *)

Abbreviation jsstr := (list N).

(** A string literal of the source (all literals used are ASCII). *)
Definition js (s : string) : jsstr :=
  map (fun a => Ascii.N_of_ascii a) (String.list_ascii_of_string s).

(** [s.startsWith(p)] at the head of [s]. *)
Fixpoint starts_with (p s : jsstr) : bool :=
  match p, s with
  | [], _ => true
  | x :: p', y :: s' => N.eqb x y && starts_with p' s'
  | _ :: _, [] => false
  end.

(** [s.slice(a, b)] for [0 <= a <= b]. *)
Definition slice (s : jsstr) (a b : nat) : jsstr :=
  firstn (b - a) (skipn a s).

(** [toLocaleLowerCase] on the ASCII range: code units 'A'..'Z' are mapped
    to 'a'..'z'.  This is the whole of the operation on ASCII strings in a
    locale without special casing of ASCII letters (all locales but Turkish
    and Azerbaijani, which map 'I' to a dotless i).  On other code units
    the map is the identity, which [toLocaleLowerCase] is not in general:
    the results about the container pattern assume [plain_tag] of the
    lowercased name, which excludes every non-ASCII code unit. *)
Definition lower_unit (c : N) : N :=
  if (65 <=? c)%N && (c <=? 90)%N then (c + 32)%N else c.

Definition to_lower (s : jsstr) : jsstr := map lower_unit s.

(** Characters with a meaning inside a JavaScript regular expression. *)
Definition regex_meta (c : N) : bool :=
  existsb (N.eqb c) (js "^$\.*+?()[]{}|").

(** A tag name that [new RegExp(`<${markupTagName}...`)] reads literally:
    ASCII code units none of which is a regular-expression metacharacter.
    The pattern below is the embedding of the source's regular expression
    for such names. *)
Definition plain_tag (t : jsstr) : bool :=
  forallb (fun c => (c <? 128)%N && negb (regex_meta c)) t.

(** ** The markup container pattern

    [new RegExp(`<${tag}([\s\S]*?)(?:>([\s\S]* )<\/${tag}>|/>)`)]
    (without the blank before the closing parenthesis of the inner group) used with
    [String.prototype.match] (no [g] flag): the leftmost match, found by the
    backtracking order of the regular expression: at each start position,
    the lazy attribute group grows from zero code units; for each length,
    the first alternative (">" then the greedy inner group, longest first,
    then the closing tag) is tried before the second ("/>"). *)

Record regex_match := {
  m_index : nat;             (** [templateMatch.index] *)
  m_full : jsstr;            (** [templateMatch[0]] *)
  m_attrs : jsstr;           (** [templateMatch[1]] *)
  m_inner : option jsstr;    (** [templateMatch[2]], undefined for "/>" *)
}.

Definition open_tag (tag : jsstr) : jsstr := js "<" ++ tag.
Definition close_tag (tag : jsstr) : jsstr := js "</" ++ tag ++ js ">".

(** The greedy inner group [[\s\S]*] followed by the closing tag, the inner group
    starting at [start]: lengths [m], [m-1], ..., [0] are tried in turn. *)
Fixpoint close_greedy (tag s : jsstr) (start m : nat) : option nat :=
  if starts_with (close_tag tag) (drop (start + m) s) then Some m
  else match m with
       | O => None
       | S m' => close_greedy tag s start m'
       end.

(** The alternation at position [p], just after the attribute group:
    [Some (Some m)] for the first alternative with an inner group of length
    [m], [Some None] for "/>". *)
Definition alternation (tag s : jsstr) (p : nat) : option (option nat) :=
  match (if starts_with (js ">") (drop p s)
         then close_greedy tag s (S p) (length s - S p) else None) with
  | Some m => Some (Some m)
  | None => if starts_with (js "/>") (drop p s) then Some None else None
  end.

(** The lazy [([\s\S]*?)]: the attribute group ends at [p], [p+1], ... *)
Fixpoint lazy_attrs (tag s : jsstr) (p fuel : nat)
  : option (nat * option nat) :=
  match alternation tag s p with
  | Some r => Some (p, r)
  | None => match fuel with
            | O => None
            | S f => lazy_attrs tag s (S p) f
            end
  end.

Definition match_end (tag : jsstr) (p : nat) (r : option nat) : nat :=
  match r with
  | Some m => S p + m + length (close_tag tag)
  | None => p + 2
  end.

(** The match starting at [i], if any. *)
Definition match_at (tag s : jsstr) (i : nat) : option regex_match :=
  if starts_with (open_tag tag) (drop i s) then
    let j := i + length (open_tag tag) in
    match lazy_attrs tag s j (length s - j) with
    | Some (p, r) =>
        Some {| m_index := i;
                m_full := slice s i (match_end tag p r);
                m_attrs := slice s j p;
                m_inner := match r with
                           | Some m => Some (slice s (S p) (S p + m))
                           | None => None
                           end |}
    | None => None
    end
  else None.

Fixpoint search_from (tag s : jsstr) (i fuel : nat) : option regex_match :=
  match match_at tag s i with
  | Some m => Some m
  | None => match fuel with
            | O => None
            | S f => search_from tag s (S i) f
            end
  end.

(** [content.match(markupPattern)] *)
Definition markup_match (tag content : jsstr) : option regex_match :=
  search_from tag content 0 (length content).

(** ** Attribute string parsing in [markup]

    [attributesStr.split(/\s+/).filter(Boolean)]: the code units matched by
    [\s] in JavaScript. Splitting at every white-space code unit and then
    dropping the empty pieces gives the same tokens as splitting at runs of
    white space and dropping the empty pieces. *)
Definition js_space (c : N) : bool :=
  existsb (N.eqb c)
    [9; 10; 11; 12; 13; 32; 160; 5760; 8232; 8233; 8239; 8287; 12288; 65279]%N
  || ((8192 <=? c)%N && (c <=? 8202)%N).

Fixpoint split_on (sep : N -> bool) (s : jsstr) : list jsstr :=
  match s with
  | [] => [[]]
  | c :: s' =>
      let rest := split_on sep s' in
      if sep c then [] :: rest
      else match rest with
           | w :: ws => (c :: w) :: ws
           | [] => [[c]]
           end
  end.

Inductive attr_value := AStr (s : jsstr) | ATrue.

(** [value.replace(/[quote characters]/g, '')]: every single-quote (39)
    and double-quote (34) code unit removed. *)
Definition strip_quotes (v : jsstr) : jsstr :=
  filter (fun c => negb (N.eqb c 39%N) && negb (N.eqb c 34%N)) v.

(** [acc[name] = v] on the accumulator [{}], a plain object whose own
    properties the map holds: an assignment to [__proto__] goes to the
    accessor inherited from [Object.prototype], which ignores a primitive
    value (the values here are strings and [true]); any other name becomes
    an own property. *)
Definition set_attr (acc : gmap jsstr attr_value) (name : jsstr)
    (v : attr_value) : gmap jsstr attr_value :=
  if bool_decide (name = js "__proto__") then acc else <[name := v]> acc.

(** One step of the [reduce]: [const [name, value] = attr.split('=')];
    [acc[name] = value ? value.replace(...) : true]. *)
Definition add_attr (acc : gmap jsstr attr_value) (attr : jsstr)
  : gmap jsstr attr_value :=
  match split_on (N.eqb 61%N) attr with
  | name :: value :: _ =>
      match value with
      | [] => set_attr acc name ATrue
      | _ => set_attr acc name (AStr (strip_quotes value))
      end
  | name :: [] => set_attr acc name ATrue
  | [] => acc
  end.

Definition parse_attributes (attributesStr : jsstr) : gmap jsstr attr_value :=
  foldl add_attr ∅
    (filter (fun w : jsstr => bool_decide (w <> [])) (split_on js_space attributesStr)).

(** [s.includes(p)]: [p] starts at some position of [s]. *)
Definition contains (p s : jsstr) : bool :=
  existsb (fun i => starts_with p (drop i s)) (seq 0 (S (length s))).

(** ** Values, results and the call trace *)

(** JavaScript values stored in option objects; [JRef] stands for an object
    or a source map the dispatcher only passes along. *)
Inductive jsval :=
| JBool (b : bool)
| JStr (s : jsstr)
| JNum (n : N)
| JNull
| JRef (id : nat).

(** [Processed]: absent fields are [None]. *)
Record processed := {
  p_code : jsstr;
  p_map : option jsval;
  p_dependencies : option (list jsstr);
  p_diagnostics : option (list jsstr);
}.

Definition code_only (c : jsstr) : processed :=
  {| p_code := c; p_map := None; p_dependencies := None; p_diagnostics := None |}.

(** The errors the dispatcher lets through: a missing transformer module,
    or whatever a transformer raises. *)
Inductive error :=
| TransformerNotFound (name : jsstr)
| TransformerFailure (message : jsstr).

Inductive result (A : Type) :=
| Ok (a : A)
| Err (e : error).
Arguments Ok {A} a.
Arguments Err {A} e.

(** Observable steps of a call: option resolution, content preparation,
    loading of a transformer module, a call of a user-supplied function
    option, and the invocation of a loaded transformer. *)
Inductive event :=
| EResolveOptions (name : jsstr)
| EPrepareContent
| ELoadModule (name : jsstr)
| ECallOption
| ERunModule (name : jsstr).

(** The asynchronous code as a writer-and-error monad: the trace of the
    steps taken, and the value or the error the promise settles with. *)
Definition M (A : Type) : Type := (list event * result A)%type.

Definition ret {A} (a : A) : M A := ([], Ok a).

Definition bind {A B} (x : M A) (f : A -> M B) : M B :=
  match x with
  | (l, Ok a) => let (l', r) := f a in (l ++ l', r)
  | (l, Err e) => (l, Err e)
  end.

Definition emit (e : event) : M unit := ([e], Ok tt).

Definition lift {A} (r : result A) : M A := ([], r).

Notation "x <- c ;; k" := (bind c (fun x => k))
  (at level 100, c at next level, right associativity).
Notation "c ;;; k" := (bind c (fun _ : unit => k))
  (at level 100, right associativity).

(** ** Transformer arguments and options *)

(** The argument a function option receives: [{content, map, filename,
    attributes}]. *)
Record fn_args := {
  fa_content : jsstr;
  fa_map : option jsval;
  fa_filename : option jsstr;
  fa_attributes : option (gmap jsstr attr_value);
}.

(** [TransformerOptions] and the other values of the options bag: the
    disabling marker [false], [true], undefined, null, a function, an
    options object, or another primitive (a string). *)
Inductive optval :=
| OFalse
| OTrue
| OUndef
| ONull
| OFun (f : fn_args -> result processed)
| OObj (o : gmap jsstr jsval)
| OOther (s : jsstr).

(** What a transformer module receives. *)
Record module_args := {
  ma_content : jsstr;
  ma_filename : option jsstr;
  ma_map : option jsval;
  ma_attributes : option (gmap jsstr attr_value);
  ma_options : optval;
}.

Definition transformer := module_args -> result processed.

(** JavaScript truthiness of a bag entry. *)
Definition truthy (o : optval) : bool :=
  match o with
  | OFalse | OUndef | ONull => false
  | OOther s => bool_decide (s <> [])
  | _ => true
  end.

(** A value used as a property key or in a template literal: [undefined]
    is written "undefined". *)
Definition js_key (k : option jsstr) : jsstr :=
  match k with Some s => s | None => js "undefined" end.

(** [concat] of [modules/concat], modelled from the spec (section 4.5, the
    module is not in src): both absent gives absent, one present gives that
    one, both present gives their concatenation in order. *)
Definition concat {A} (a b : option (list A)) : option (list A) :=
  match a, b with
  | None, None => None
  | Some x, None => Some x
  | None, Some y => Some y
  | Some x, Some y => Some (x ++ y)
  end.

(** [runTransformer] *)
Definition runTransformer (modules : jsstr -> option transformer)
    (name : jsstr) (options : optval) (a : fn_args) : M processed :=
  match options with
  | OFalse => ret (code_only (fa_content a))
  | OFun f => emit ECallOption ;;; lift (f a)
  | _ =>
      emit (ELoadModule name) ;;;
      match modules name with
      | None => lift (Err (TransformerNotFound name))
      | Some t =>
          emit (ERunModule name) ;;;
          lift (t {| ma_content := fa_content a;
                     ma_filename := fa_filename a;
                     ma_map := fa_map a;
                     ma_attributes := fa_attributes a;
                     ma_options := match options with
                                   | OTrue => ONull
                                   | o => o
                                   end |})
      end
  end.

(** ** Configuration and collaborators *)

(** A property of an object literal: absent, present with [undefined], or
    present with a value (object spread tells them apart). *)
Inductive prop (A : Type) := PAbsent | PUndefined | PVal (a : A).
Arguments PAbsent {A}.
Arguments PUndefined {A}.
Arguments PVal {A} a.

Record defaults_opt := {
  d_markup : prop jsstr;
  d_style : prop jsstr;
  d_script : prop jsstr;
}.

(** [AutoPreprocessOptions] after destructuring: [None] for an option left
    undefined; [transformers] is the [...rest] bag. *)
Record config := {
  cfg_markupTagName : option jsstr;
  cfg_preserve : option (list jsstr);
  cfg_defaults : option defaults_opt;
  cfg_sourceMap : option bool;
  transformers : gmap jsstr optval;
}.

Inductive block_type := Markup | Style | Script.

(** [svelteFile]: the argument of a [Preprocessor]. *)
Record svelte_file := {
  sf_content : option jsstr;
  sf_attributes : gmap jsstr attr_value;
  sf_filename : option jsstr;
}.

(** [TagInfo]: what [getTagInfo] returns. *)
Record tag_info := {
  ti_content : jsstr;
  ti_filename : option jsstr;
  ti_lang : option jsstr;
  ti_alias : option jsstr;
  ti_dependencies : list jsstr;
  ti_attributes : gmap jsstr attr_value;
}.

(** The imported collaborators that are not part of src: the transformer
    modules found by [import(`./transformers/${name}`)], [getTagInfo],
    [prepareContent], [SOURCE_MAP_PROP_MAP], the answer of
    [hasDepInstalled('postcss')] and the process-wide alias dictionary read
    by [getLanguageFromAlias] at the time of the call. *)
Record env := {
  modules : jsstr -> option transformer;
  getTagInfo : svelte_file -> tag_info;
  prepareContent : optval -> jsstr -> jsstr;
  SOURCE_MAP_PROP_MAP : gmap jsstr (jsstr * jsval);
  postcss_installed : bool;
  language_dict : gmap jsstr jsstr;
}.

(** Modelled from the spec: [getLanguageFromAlias] of [modules/language]
    (section 4.1, resolveCanonical): the canonical name mapped to the alias,
    or the alias itself when it is unmapped. *)
Definition getLanguageFromAlias (dict : gmap jsstr jsstr) (alias : option jsstr)
  : option jsstr :=
  match alias with
  | Some a => Some (default a (dict !! a))
  | None => None
  end.

(** Modelled from the spec: the content preparation of [modules/prepareContent]
    (section 4.4 step 5, strip a leading byte-order mark). *)
Definition prepareContent_bom (options : optval) (content : jsstr) : jsstr :=
  match content with
  | 65279%N :: rest => rest
  | _ => content
  end.

Definition ALIAS_OPTION_OVERRIDES : gmap jsstr (gmap jsstr jsval) :=
  {[ js "sass" := {[ js "indentedSyntax" := JBool true ]} ]}.

(** The property names a plain JavaScript object inherits from
    [Object.prototype].  Reading one of them on an object that has no own
    property of that name gives the inherited value (a function, or the
    prototype itself for [__proto__]), and [name in object] holds for
    them. *)
Definition object_prototype_keys : list jsstr :=
  map js ["constructor"; "__proto__"; "toString"; "toLocaleString";
          "valueOf"; "hasOwnProperty"; "isPrototypeOf";
          "propertyIsEnumerable"; "__defineGetter__"; "__defineSetter__";
          "__lookupGetter__"; "__lookupSetter__"]%string.

Definition inherited_key (k : jsstr) : bool :=
  bool_decide (k ∈ object_prototype_keys).

(** [Object.assign(target, source)]: the keys of [source] overwrite. *)
Definition assign (target source : gmap jsstr jsval) : gmap jsstr jsval :=
  source ∪ target.

Section AutoPreprocess.
Variable cfg : config.
Variable E : env.

(** [markupTagName = markupTagName.toLocaleLowerCase()] *)
Definition markupTagName : jsstr :=
  to_lower (default (js "template") (cfg_markupTagName cfg)).

Definition preserve : list jsstr := default [] (cfg_preserve cfg).
Definition sourceMap : bool := default false (cfg_sourceMap cfg).

Definition spread (base : jsstr) (p : prop jsstr) : option jsstr :=
  match p with
  | PAbsent => Some base
  | PUndefined => None
  | PVal v => Some v
  end.

(** [defaultLanguages[type]] of
    [{markup: 'html', style: 'css', script: 'javascript', ...defaults}]. *)
Definition defaultLanguage (t : block_type) : option jsstr :=
  match t, cfg_defaults cfg with
  | Markup, Some d => spread (js "html") (d_markup d)
  | Style, Some d => spread (js "css") (d_style d)
  | Script, Some d => spread (js "javascript") (d_script d)
  | Markup, None => Some (js "html")
  | Style, None => Some (js "css")
  | Script, None => Some (js "javascript")
  end.

(** A property read on the bag: its own property, [undefined] when absent.
    This is the source's [transformers[k]] for every key that is an own
    property of the bag or not in [object_prototype_keys]; for an inherited
    name the source reads the inherited value instead, so the results that
    read the bag assume [inherited_key k = false] for the keys read. *)
Definition bag (k : jsstr) : optval := default OUndef (transformers cfg !! k).

(** [getTransformerOptions].  [name in SOURCE_MAP_PROP_MAP] is read as a
    lookup of the table's own keys, which it is for names outside
    [object_prototype_keys]. *)
Definition getTransformerOptions (name alias : option jsstr) : optval :=
  let nameOpts := bag (js_key name) in
  let aliasOpts := bag (js_key alias) in
  match aliasOpts, nameOpts with
  | OFun _, _ => aliasOpts
  | _, OFun _ => nameOpts
  | OFalse, _ | _, OFalse => OFalse
  | _, _ =>
      let opts1 := match nameOpts with OObj o => assign ∅ o | _ => ∅ end in
      let opts2 :=
        if bool_decide (name <> alias) then
          let o := assign opts1
                     (default ∅ (ALIAS_OPTION_OVERRIDES !! js_key alias)) in
          match aliasOpts with OObj a => assign o a | _ => o end
        else opts1 in
      let opts3 :=
        if sourceMap then
          match SOURCE_MAP_PROP_MAP E !! js_key name with
          | Some (propName, value) => <[propName := value]> opts2
          | None => opts2
          end
        else opts2 in
      OObj opts3
  end.

(** [if (lang == null || alias == null) { alias = defaultLanguages[type];
    lang = getLanguageFromAlias(alias) }] *)
Definition effective_lang (t : block_type) (ti : tag_info)
  : option jsstr * option jsstr :=
  match ti_lang ti, ti_alias ti with
  | Some l, Some a => (Some l, Some a)
  | _, _ =>
      let alias := defaultLanguage t in
      (getLanguageFromAlias (language_dict E) alias, alias)
  end.

(** [preserve.includes(x)] *)
Definition includes (x : option jsstr) : bool :=
  match x with
  | Some s => bool_decide (s ∈ preserve)
  | None => false
  end.

(** [getTransformerTo(type, targetLanguage)] applied to a file. *)
Definition getTransformerTo (t : block_type) (targetLanguage : jsstr)
    (svelteFile : svelte_file) : M processed :=
  let ti := getTagInfo E svelteFile in
  let (lang, alias) := effective_lang t ti in
  if includes lang || includes alias then ret (code_only (ti_content ti))
  else
    emit (EResolveOptions (js_key lang)) ;;;
    let transformerOptions := getTransformerOptions lang alias in
    emit EPrepareContent ;;;
    let content := prepareContent E transformerOptions (ti_content ti) in
    if bool_decide (lang = Some targetLanguage) then
      ret {| p_code := content; p_map := None;
             p_dependencies := Some (ti_dependencies ti);
             p_diagnostics := None |}
    else
      transformed <- runTransformer (modules E) (js_key lang)
                       transformerOptions
                       {| fa_content := content; fa_map := None;
                          fa_filename := ti_filename ti;
                          fa_attributes := Some (ti_attributes ti) |} ;;
      ret {| p_code := p_code transformed;
             p_map := p_map transformed;
             p_dependencies := concat (Some (ti_dependencies ti))
                                      (p_dependencies transformed);
             p_diagnostics := p_diagnostics transformed |}.

Definition scriptTransformer := getTransformerTo Script (js "javascript").
Definition cssTransformer := getTransformerTo Style (js "css").
Definition markupTransformer := getTransformerTo Markup (js "html").

(** The text-replacement pre-pass of [markup]: [if (transformers.replace)
    content = (await runTransformer('replace', ...)).code]. *)
Definition replacePass (content : jsstr) (filename : option jsstr)
  : M jsstr :=
  if truthy (bag (js "replace")) then
    transformed <- runTransformer (modules E) (js "replace")
                     (bag (js "replace"))
                     {| fa_content := content; fa_map := None;
                        fa_filename := filename; fa_attributes := None |} ;;
    ret (p_code transformed)
  else ret content.

(** The rest of [markup]: the container search and the splice. *)
Definition markupSplice (content : jsstr) (filename : option jsstr)
  : M processed :=
  match markup_match markupTagName content with
  | None =>
      markupTransformer {| sf_content := Some content; sf_attributes := ∅;
                           sf_filename := filename |}
  | Some templateMatch =>
      r <- markupTransformer
             {| sf_content := m_inner templateMatch;
                sf_attributes := parse_attributes (m_attrs templateMatch);
                sf_filename := filename |} ;;
      ret {| p_code := take (m_index templateMatch) content ++ p_code r ++
                       drop (m_index templateMatch
                             + length (m_full templateMatch)) content;
             p_map := p_map r;
             p_dependencies := p_dependencies r;
             p_diagnostics := None |}
  end.

(** [markup] *)
Definition markup (content : jsstr) (filename : option jsstr) : M processed :=
  document <- replacePass content filename ;;
  markupSplice document filename.

(** [script] *)
Definition script (content : jsstr) (attributes : gmap jsstr attr_value)
    (filename : option jsstr) : M processed :=
  r <- scriptTransformer {| sf_content := Some content;
                            sf_attributes := attributes;
                            sf_filename := filename |} ;;
  if truthy (bag (js "babel")) then
    emit (EResolveOptions (js "babel")) ;;;
    transformed <- runTransformer (modules E) (js "babel")
                     (getTransformerOptions (Some (js "babel")) None)
                     {| fa_content := p_code r; fa_map := p_map r;
                        fa_filename := filename;
                        fa_attributes := Some attributes |} ;;
    ret {| p_code := p_code transformed;
           p_map := p_map transformed;
           p_dependencies := concat (p_dependencies r)
                                    (p_dependencies transformed);
           p_diagnostics := concat (p_diagnostics r)
                                   (p_diagnostics transformed) |}
  else ret r.

(** The postcss stage of [style]: code, map and dependencies after it. *)
Definition postcssStage (attributes : gmap jsstr attr_value)
    (filename : option jsstr) (r : processed) : M processed :=
  if truthy (bag (js "postcss")) then
    emit (EResolveOptions (js "postcss")) ;;;
    transformed <- runTransformer (modules E) (js "postcss")
                     (getTransformerOptions (Some (js "postcss")) None)
                     {| fa_content := p_code r; fa_map := p_map r;
                        fa_filename := filename;
                        fa_attributes := Some attributes |} ;;
    ret {| p_code := p_code transformed;
           p_map := p_map transformed;
           p_dependencies := concat (p_dependencies r)
                                    (p_dependencies transformed);
           p_diagnostics := None |}
  else ret r.

(** [style] *)
Definition style (content : jsstr) (attributes : gmap jsstr attr_value)
    (filename : option jsstr) : M processed :=
  r <- cssTransformer {| sf_content := Some content;
                         sf_attributes := attributes;
                         sf_filename := filename |} ;;
  if postcss_installed E then
    r' <- postcssStage attributes filename r ;;
    emit (EResolveOptions (js "globalStyle")) ;;;
    transformed <- runTransformer (modules E) (js "globalStyle")
                     (getTransformerOptions (Some (js "globalStyle")) None)
                     {| fa_content := p_code r'; fa_map := p_map r';
                        fa_filename := filename;
                        fa_attributes := Some attributes |} ;;
    ret {| p_code := p_code transformed;
           p_map := p_map transformed;
           p_dependencies := p_dependencies r';
           p_diagnostics := None |}
  else ret {| p_code := p_code r; p_map := p_map r;
              p_dependencies := p_dependencies r; p_diagnostics := None |}.

End AutoPreprocess.

(** ** The babel preprocessor group (src/unnamed/part_000)

    [script] of the group: it imports the babel transformer, reads the tag
    information, prepares the content with the group's options and runs
    babel on it, whatever the block's language. *)
Definition babelGroupScript (E : env) (options : optval)
    (svelteFile : svelte_file) : M processed :=
  emit (ELoadModule (js "babel")) ;;;
  match modules E (js "babel") with
  | None => lift (Err (TransformerNotFound (js "babel")))
  | Some t =>
      let ti := getTagInfo E svelteFile in
      emit EPrepareContent ;;;
      let content := prepareContent E options (ti_content ti) in
      emit (ERunModule (js "babel")) ;;;
      transformed <- lift (t {| ma_content := content;
                                ma_filename := ti_filename ti;
                                ma_map := None;
                                ma_attributes := Some (ti_attributes ti);
                                ma_options := options |}) ;;
      ret {| p_code := p_code transformed;
             p_map := p_map transformed;
             p_dependencies := concat (Some (ti_dependencies ti))
                                      (p_dependencies transformed);
             p_diagnostics := p_diagnostics transformed |}
  end.

(** ** The sass transformer (src/src/transformers/scss.ts, lines 1-64) *)

(** The [Result] of a sass render: [css], [map] and [stats.includedFiles]. *)
Record sass_result := {
  css : jsstr;
  sr_map : option jsstr;
  includedFiles : list jsstr;
}.

(** The options object handed to [render]/[renderSync]:
    [{sourceMap: true, ...options, includePaths, outFile}] without
    [renderSync] and [implementation], with [data] set. The keys other than
    [includePaths], [outFile] and [data] are in [sc_other]. *)
Record sass_call := {
  sc_other : gmap jsstr jsval;
  sc_includePaths : list jsstr;
  sc_outFile : jsstr;
  sc_data : jsstr;
}.

(** A sass implementation ([sass] or [node-sass]): [renderSync] throws or
    returns, [render] calls back with an error or a result. *)
Record sass_impl := {
  impl_renderSync : sass_call -> result sass_result;
  impl_render : sass_call -> result sass_result;
}.

(** [Options.Sass]: [renderSync], [implementation], [data], [includePaths],
    and the other keys (such as [sourceMap]) in [o_other]. *)
Record sass_options := {
  o_renderSync : option bool;
  o_implementation : option sass_impl;
  o_data : option jsstr;
  o_includePaths : option (list jsstr);
  o_other : gmap jsstr jsval;
}.

(** What the sass transformer resolves to; [code] is [options.data] on
    empty input, which may be undefined. *)
Record sass_output := {
  out_code : option jsstr;
  out_map : option jsstr;
  out_dependencies : option (list jsstr);
}.

(** [getResultForResolve] *)
Definition getResultForResolve (r : sass_result) : sass_output :=
  {| out_code := Some (css r); out_map := sr_map r;
     out_dependencies := Some (includedFiles r) |}.

Definition result_map {A B} (f : A -> B) (r : result A) : result B :=
  match r with Ok a => Ok (f a) | Err e => Err e end.

(** The data string: [options.data ? options.data + content : content]. *)
Definition sass_data (options : sass_options) (content : jsstr) : jsstr :=
  match o_data options with
  | Some ((_ :: _) as d) => d ++ content
  | _ => content
  end.

(** The options object given to the renderer. *)
Definition sass_call_of (getIncludePaths : option jsstr -> option (list jsstr) -> list jsstr)
    (options : sass_options) (content : jsstr) (filename : option jsstr)
  : sass_call :=
  {| sc_other := assign {[ js "sourceMap" := JBool true ]} (o_other options);
     sc_includePaths := getIncludePaths filename (o_includePaths options);
     sc_outFile := js_key filename ++ js ".css";
     sc_data := sass_data options content |}.

(** [implementation = passedImplementation ?? sass], importing
    [sass]/[node-sass] when neither is there and keeping the import in the
    module-level [sass]: the new value of [sass] and the implementation. *)
Definition sass_resolve_impl (importAny : result sass_impl)
    (cache : option sass_impl) (options : sass_options)
  : option sass_impl * result sass_impl :=
  match o_implementation options with
  | Some i => (cache, Ok i)
  | None =>
      match cache with
      | Some i => (cache, Ok i)
      | None =>
          match importAny with
          | Ok i => (Some i, Ok i)
          | Err e => (None, Err e)
          end
      end
  end.

(** The transformer: the module-level [sass] is threaded as state.
    [getIncludePaths] (of [../utils]) and the outcome of
    [importAny('sass', 'node-sass')] are parameters. *)
Definition sassTransformer
    (getIncludePaths : option jsstr -> option (list jsstr) -> list jsstr)
    (importAny : result sass_impl) (cache : option sass_impl)
    (content : jsstr) (filename : option jsstr) (options : sass_options)
  : option sass_impl * result sass_output :=
  let (cache', impl) := sass_resolve_impl importAny cache options in
  match impl with
  | Err e => (cache', Err e)
  | Ok i =>
      let call := sass_call_of getIncludePaths options content filename in
      if bool_decide (sc_data call = []) then
        (cache', Ok {| out_code := o_data options; out_map := None;
                       out_dependencies := None |})
      else if default false (o_renderSync options) then
        (cache', result_map getResultForResolve (impl_renderSync i call))
      else
        (cache', result_map getResultForResolve (impl_render i call))
  end.

(** ** A concrete configuration and environment for the examples *)

(** No option given: every field of [AutoPreprocessOptions] undefined. *)
Definition cfg_default : config :=
  {| cfg_markupTagName := None; cfg_preserve := None; cfg_defaults := None;
     cfg_sourceMap := None; transformers := ∅ |}.

(** A stand-in for [getTagInfo]: the [lang] attribute gives both the alias
    and, through the dictionary, the language; no [lang] attribute leaves
    both null; undefined content is read as the empty string. *)
Definition demo_tag_info (dict : gmap jsstr jsstr) (f : svelte_file) : tag_info :=
  let a := match sf_attributes f !! js "lang" with
           | Some (AStr l) => Some l
           | _ => None
           end in
  {| ti_content := default [] (sf_content f);
     ti_filename := sf_filename f;
     ti_lang := getLanguageFromAlias dict a;
     ti_alias := a;
     ti_dependencies := match sf_filename f with
                        | Some n => [n]
                        | None => []
                        end;
     ti_attributes := sf_attributes f |}.

(** A pug transformer stand-in that wraps its input. *)
Definition demo_pug : transformer := fun a =>
  Ok {| p_code := js "<p>" ++ ma_content a ++ js "</p>";
        p_map := None; p_dependencies := Some [js "mixins.pug"];
        p_diagnostics := None |}.

Definition demo_dict : gmap jsstr jsstr := {[ js "pcss" := js "postcss" ]}.

Definition demo_env : env :=
  {| modules := fun n => if bool_decide (n = js "pug") then Some demo_pug
                          else None;
     getTagInfo := demo_tag_info demo_dict;
     prepareContent := fun _ c => c;
     SOURCE_MAP_PROP_MAP := ∅;
     postcss_installed := true;
     language_dict := demo_dict |}.

Definition cfg_tag (name : jsstr) : config :=
  {| cfg_markupTagName := Some name; cfg_preserve := None;
     cfg_defaults := None; cfg_sourceMap := None; transformers := ∅ |}.

Definition cfg_preserve_css : config :=
  {| cfg_markupTagName := None; cfg_preserve := Some [js "css"];
     cfg_defaults := None; cfg_sourceMap := None; transformers := ∅ |}.

Definition sf_css (content : jsstr) : svelte_file :=
  {| sf_content := Some content;
     sf_attributes := {[ js "lang" := AStr (js "css") ]};
     sf_filename := Some (js "a.css") |}.

(** The environment of the examples with the content preparation of the
    spec (a leading byte-order mark stripped). *)
Definition demo_env_bom : env :=
  {| modules := modules demo_env;
     getTagInfo := getTagInfo demo_env;
     prepareContent := prepareContent_bom;
     SOURCE_MAP_PROP_MAP := SOURCE_MAP_PROP_MAP demo_env;
     postcss_installed := postcss_installed demo_env;
     language_dict := language_dict demo_env |}.

Definition cfg_markup_undefined : config :=
  {| cfg_markupTagName := None; cfg_preserve := None;
     cfg_defaults := Some {| d_markup := PUndefined; d_style := PAbsent;
                             d_script := PAbsent |};
     cfg_sourceMap := None; transformers := ∅ |}.

Definition sf_plain : svelte_file :=
  {| sf_content := Some (js "<p>hi</p>"); sf_attributes := ∅;
     sf_filename := None |}.

(** The source-map step of [getTransformerOptions] does not write [k]. *)
Definition sourcemap_leaves (cfg : config) (E : env) (name k : jsstr) : Prop :=
  sourceMap cfg = false \/
  forall v', SOURCE_MAP_PROP_MAP E !! name <> Some (k, v').

Definition cfg_scss : config :=
  {| cfg_markupTagName := None; cfg_preserve := None; cfg_defaults := None;
     cfg_sourceMap := None;
     transformers := {[ js "scss" :=
                          OObj {[ js "indentedSyntax" := JBool false ]} ]} |}.

(** Stand-ins for the postcss and global-style transformers, each reporting
    a dependency of its own. *)
Definition demo_stage (out dep : string) : transformer := fun a =>
  Ok {| p_code := js out; p_map := None; p_dependencies := Some [js dep];
        p_diagnostics := None |}.

Definition demo_env_style : env :=
  {| modules := fun n =>
       if bool_decide (n = js "postcss") then Some (demo_stage "P" "post.dep")
       else if bool_decide (n = js "globalStyle")
       then Some (demo_stage "G" "global.dep")
       else None;
     getTagInfo := demo_tag_info demo_dict;
     prepareContent := fun _ c => c;
     SOURCE_MAP_PROP_MAP := ∅;
     postcss_installed := true;
     language_dict := demo_dict |}.

Definition cfg_postcss : config :=
  {| cfg_markupTagName := None; cfg_preserve := None; cfg_defaults := None;
     cfg_sourceMap := None; transformers := {[ js "postcss" := OObj ∅ ]} |}.

(** A configuration with the given [sourceMap] flag and bag of transformer
    options. *)
Definition cfg_bag (sm : bool) (b : gmap jsstr optval) : config :=
  {| cfg_markupTagName := None; cfg_preserve := None; cfg_defaults := None;
     cfg_sourceMap := Some sm; transformers := b |}.

(** A function option that returns its content unchanged. *)
Definition demo_fn : fn_args -> result processed :=
  fun a => Ok (code_only (fa_content a)).

(** The environment of the examples with a source-map property for
    typescript. *)
Definition demo_env_sourcemap : env :=
  {| modules := modules demo_env;
     getTagInfo := getTagInfo demo_env;
     prepareContent := prepareContent demo_env;
     SOURCE_MAP_PROP_MAP :=
       {[ js "typescript" := (js "sourceMap", JBool true) ]};
     postcss_installed := postcss_installed demo_env;
     language_dict := language_dict demo_env |}.

(** A babel stand-in reporting a dependency and a diagnostic. *)
Definition demo_babel : transformer := fun a =>
  Ok {| p_code := ma_content a; p_map := None;
        p_dependencies := Some [js "babel.config.js"];
        p_diagnostics := Some [js "unused variable"] |}.

Definition demo_env_babel : env :=
  {| modules := fun n => if bool_decide (n = js "babel") then Some demo_babel
                          else modules demo_env n;
     getTagInfo := getTagInfo demo_env;
     prepareContent := prepareContent demo_env;
     SOURCE_MAP_PROP_MAP := SOURCE_MAP_PROP_MAP demo_env;
     postcss_installed := postcss_installed demo_env;
     language_dict := language_dict demo_env |}.

(** A sass implementation stand-in: [renderSync] echoes the data as css,
    [render] fails. *)
Definition demo_sass : sass_impl :=
  {| impl_renderSync := fun c =>
       Ok {| css := sc_data c; sr_map := None; includedFiles := [] |};
     impl_render := fun _ => Err (TransformerFailure (js "render failed")) |}.

Definition sass_opts (data : option jsstr) (impl : option sass_impl)
    (sync : option bool) : sass_options :=
  {| o_renderSync := sync; o_implementation := impl; o_data := data;
     o_includePaths := None; o_other := ∅ |}.

Definition demo_includePaths (filename : option jsstr)
    (paths : option (list jsstr)) : list jsstr :=
  default [] paths.

Definition sf_scss : svelte_file :=
  {| sf_content := Some (js "a{}");
     sf_attributes := {[ js "lang" := AStr (js "scss") ]};
     sf_filename := Some (js "a.svelte") |}.


(** ** Lemmas about the pattern *)

Example markup_match_basic :
  markup_match (js "template") (js "a<template lang=x>b</template>c")
  = Some {| m_index := 1; m_full := js "<template lang=x>b</template>";
            m_attrs := js " lang=x"; m_inner := Some (js "b") |}.
Proof. reflexivity. Qed.

Example markup_pug_example :
  snd (markup cfg_default demo_env
         (js "A<template lang=pug>h1</template>B") None)
  = Ok {| p_code := js "A<p>h1</p>B"; p_map := None;
          p_dependencies := Some [js "mixins.pug"]; p_diagnostics := None |}.
Proof. vm_compute. reflexivity. Qed.

Lemma starts_with_app (p s : jsstr) :
  starts_with p s = true <-> exists r, s = p ++ r.
Proof.
  revert s; induction p as [|x p IH]; intros [|y s]; simpl.
  - split; [by exists [] | done].
  - split; [intros _; by exists (y :: s) | done].
  - split; [done | intros [r Hr]; discriminate].
  - rewrite andb_true_iff, N.eqb_eq, IH. split.
    + intros [-> [r ->]]. by exists r.
    + intros [r Hr]. injection Hr as -> ->. eauto.
Qed.

Lemma slice_prefix (p s : jsstr) (a : nat) :
  p <> [] -> starts_with p (drop a s) = true ->
  slice s a (a + length p) = p /\ a + length p <= length s.
Proof.
  intros Hp [r Hr]%starts_with_app. unfold slice.
  replace (a + length p - a) with (length p) by lia.
  rewrite Hr, take_app_length. split; [done|].
  pose proof (f_equal length Hr) as HL. rewrite length_drop, length_app in HL.
  destruct p; [done|]. simpl in *. lia.
Qed.

Lemma slice_split (s : jsstr) (a b c : nat) :
  a <= b -> b <= c -> slice s a c = slice s a b ++ slice s b c.
Proof.
  intros. unfold slice.
  replace (c - a) with ((b - a) + (c - b)) by lia.
  rewrite <- take_take_drop, drop_drop. do 3 f_equal. lia.
Qed.

Lemma length_slice (s : jsstr) (a b : nat) :
  b <= length s -> length (slice s a b) = b - a.
Proof. intros. unfold slice. rewrite length_take, length_drop. lia. Qed.

Lemma slice_around (s : jsstr) (a b : nat) :
  a <= b -> take a s ++ slice s a b ++ drop b s = s.
Proof.
  intros. unfold slice. rewrite app_assoc, take_take_drop.
  replace (a + (b - a)) with b by lia. apply take_drop.
Qed.

Lemma close_greedy_spec (tag s : jsstr) (st M k : nat) :
  close_greedy tag s st M = Some k ->
  k <= M /\ starts_with (close_tag tag) (drop (st + k) s) = true /\
  forall k', k < k' <= M ->
             starts_with (close_tag tag) (drop (st + k') s) = false.
Proof.
  induction M as [|M IH]; intros H; cbn [close_greedy] in H.
  - destruct (starts_with (close_tag tag) (drop (st + 0) s)) eqn:E; [|done].
    injection H as <-. repeat split; [lia|done|]. intros; lia.
  - destruct (starts_with (close_tag tag) (drop (st + S M) s)) eqn:E.
    + injection H as <-. repeat split; [lia|done|]. intros; lia.
    + destruct (IH H) as (Hk & Hs & Hmax). repeat split; [lia|done|].
      intros k' Hk'. destruct (decide (k' = S M)) as [->|]; [done|].
      apply Hmax. lia.
Qed.

Lemma lazy_attrs_spec (tag s : jsstr) (p fuel q : nat) (r : option nat) :
  lazy_attrs tag s p fuel = Some (q, r) ->
  p <= q /\ alternation tag s q = Some r.
Proof.
  revert p; induction fuel as [|f IH]; intros p; simpl;
    destruct (alternation tag s p) eqn:E.
  - intros [= <- <-]. auto.
  - done.
  - intros [= <- <-]. auto.
  - intros H. destruct (IH _ H). split; [lia|done].
Qed.

Lemma search_from_spec (tag s : jsstr) (i fuel : nat) (m : regex_match) :
  search_from tag s i fuel = Some m ->
  exists i', i <= i' /\ match_at tag s i' = Some m.
Proof.
  revert i; induction fuel as [|f IH]; intros i; simpl;
    destruct (match_at tag s i) eqn:E.
  - intros [= <-]. eauto.
  - done.
  - intros [= <-]. eauto.
  - intros H. destruct (IH _ H) as (i' & ? & ?). exists i'. split; [lia|done].
Qed.

Lemma alternation_first (tag s : jsstr) (p k : nat) :
  alternation tag s p = Some (Some k) ->
  starts_with (js ">") (drop p s) = true /\
  close_greedy tag s (S p) (length s - S p) = Some k.
Proof.
  unfold alternation. destruct (starts_with (js ">") _) eqn:E1.
  - destruct (close_greedy _ _ _ _) eqn:E2.
    + intros [= ->]. auto.
    + destruct (starts_with (js "/>") _); done.
  - destruct (starts_with (js "/>") _); done.
Qed.

Lemma alternation_second (tag s : jsstr) (p : nat) :
  alternation tag s p = Some None ->
  starts_with (js "/>") (drop p s) = true.
Proof.
  unfold alternation. destruct (starts_with (js ">") _).
  - destruct (close_greedy _ _ _ _).
    + done.
    + destruct (starts_with (js "/>") _); done.
  - destruct (starts_with (js "/>") _); done.
Qed.

Lemma close_tag_nonempty (tag : jsstr) : close_tag tag <> [].
Proof. unfold close_tag. simpl. done. Qed.

Lemma starts_with_close_nil (tag : jsstr) : starts_with (close_tag tag) [] = false.
Proof. unfold close_tag. simpl. done. Qed.

(** The shape of a match: it starts with ["<" ++ tag] at [m_index], lies
    inside the document at its index, and is either
    ["<" ++ tag ++ attrs ++ ">" ++ inner ++ "</" ++ tag ++ ">"], with no
    closing tag starting after the inner span, or
    ["<" ++ tag ++ attrs ++ "/>"]. *)
Lemma markup_match_shape (tag s : jsstr) (m : regex_match) :
  markup_match tag s = Some m ->
  starts_with (open_tag tag) (drop (m_index m) s) = true /\
  m_index m + length (m_full m) <= length s /\
  slice s (m_index m) (m_index m + length (m_full m)) = m_full m /\
  match m_inner m with
  | Some inner =>
      m_full m = open_tag tag ++ m_attrs m ++ js ">" ++ inner ++ close_tag tag /\
      forall q, m_index m + length (m_full m) - length (close_tag tag) < q ->
                starts_with (close_tag tag) (drop q s) = false
  | None => m_full m = open_tag tag ++ m_attrs m ++ js "/>"
  end.
Proof.
  unfold markup_match. intros H.
  apply search_from_spec in H as (i & _ & H). unfold match_at in H.
  destruct (starts_with (open_tag tag) (drop i s)) eqn:Eo; [|done].
  destruct (lazy_attrs tag s (i + length (open_tag tag))
              (length s - (i + length (open_tag tag)))) as [[p r]|] eqn:El;
    [|done].
  injection H as <-. cbn [m_index m_full m_attrs m_inner].
  apply lazy_attrs_spec in El as [Hjp Halt].
  destruct (slice_prefix (open_tag tag) s i) as [Ho Hol]; [done|done|].
  destruct r as [k|].
  - apply alternation_first in Halt as [Hgt Hcg].
    apply close_greedy_spec in Hcg as (Hk & Hcl & Hmax).
    destruct (slice_prefix (js ">") s p) as [Hg Hgl]; [done|done|].
    destruct (slice_prefix (close_tag tag) s (S p + k)) as [Hc Hcl'];
      [apply close_tag_nonempty|done|].
    cbn [length js map String.list_ascii_of_string] in Hg, Hgl.
    unfold match_end.
    rewrite length_slice by lia.
    replace (i + (S p + k + length (close_tag tag) - i))
      with (S p + k + length (close_tag tag)) by lia.
    split; [done|]. split; [lia|]. split; [done|]. split.
    + rewrite (slice_split s i (i + length (open_tag tag))) by lia.
      rewrite (slice_split s (i + length (open_tag tag)) p) by lia.
      rewrite (slice_split s p (p + 1)) by lia.
      rewrite (slice_split s (p + 1) (S p + k)) by lia.
      rewrite Ho, Hg. replace (p + 1) with (S p) by lia. rewrite Hc. done.
    + intros q Hq.
      destruct (decide (q <= S p + (length s - S p))) as [Hle|Hgt'].
      * replace q with (S p + (q - S p)) by lia. apply Hmax. lia.
      * rewrite drop_ge by lia. apply starts_with_close_nil.
  - apply alternation_second in Halt.
    destruct (slice_prefix (js "/>") s p) as [Hsc Hscl]; [done|done|].
    cbn [length js map String.list_ascii_of_string] in Hsc, Hscl.
    unfold match_end.
    rewrite length_slice by lia.
    replace (i + (p + 2 - i)) with (p + 2) by lia.
    split; [done|]. split; [lia|]. split; [done|].
    rewrite (slice_split s i (i + length (open_tag tag))) by lia.
    rewrite (slice_split s (i + length (open_tag tag)) p) by lia.
    rewrite Ho, Hsc. done.
Qed.

Lemma contains_false (p s : jsstr) (i : nat) :
  p <> [] -> contains p s = false -> starts_with p (drop i s) = false.
Proof.
  intros Hp Hc. destruct (decide (i <= length s)) as [Hi|Hi].
  - destruct (starts_with p (drop i s)) eqn:E; [|done].
    assert (existsb (fun i => starts_with p (drop i s)) (seq 0 (S (length s)))
            = true) as Ht.
    { apply existsb_exists. exists i. split; [|done].
      apply in_seq. lia. }
    unfold contains in Hc. congruence.
  - rewrite drop_ge by lia. destruct p; done.
Qed.

(** ** The markup splicer *)

(** C1: when the container pattern matches the document that [markup]
    splices (the content after the optional replace pre-pass), the document
    is [before ++ match ++ after] with [before] as long as the match index,
    and the result code is [before ++ inner code ++ after]: exactly the
    matched span is replaced, and the text around it is kept unchanged,
    whatever it contains. *)
Theorem markup_splices_exactly_the_match (cfg : config) (E : env)
    (content document : jsstr) (filename : option jsstr)
    (l1 l2 : list event) (m : regex_match) (r : processed) :
  plain_tag (markupTagName cfg) = true ->
  replacePass cfg E content filename = (l1, Ok document) ->
  markup_match (markupTagName cfg) document = Some m ->
  markupTransformer cfg E {| sf_content := m_inner m;
                             sf_attributes := parse_attributes (m_attrs m);
                             sf_filename := filename |} = (l2, Ok r) ->
  exists before after,
    document = before ++ m_full m ++ after /\
    length before = m_index m /\
    snd (markup cfg E content filename) =
      Ok {| p_code := before ++ p_code r ++ after;
            p_map := p_map r;
            p_dependencies := p_dependencies r;
            p_diagnostics := None |}.
Proof.
  intros _ H1 H2 H3.
  destruct (markup_match_shape _ _ _ H2) as (_ & Hlen & Hsl & _).
  exists (take (m_index m) document),
         (drop (m_index m + length (m_full m)) document).
  split; [|split].
  - pose proof (slice_around document (m_index m)
                  (m_index m + length (m_full m)) ltac:(lia)) as Hs.
    rewrite Hsl in Hs. done.
  - apply length_take_le. lia.
  - unfold markup. rewrite H1. cbn -[markupSplice].
    unfold markupSplice. rewrite H2. cbn -[markupTransformer].
    rewrite H3. reflexivity.
Qed.

Lemma markup_splices_exactly_the_match_witness :
  exists before after,
    js "<template lang=pug>x</template><!-- <template> -->"
      = before ++ js "<template lang=pug>x</template>" ++ after /\
    length before = 0 /\
    snd (markup cfg_default demo_env
           (js "<template lang=pug>x</template><!-- <template> -->") None)
    = Ok {| p_code := before ++ js "<p>x</p>" ++ after;
            p_map := None;
            p_dependencies := Some [js "mixins.pug"];
            p_diagnostics := None |}.
Proof.
  apply (markup_splices_exactly_the_match cfg_default demo_env
           (js "<template lang=pug>x</template><!-- <template> -->")
           (js "<template lang=pug>x</template><!-- <template> -->") None
           [] [EResolveOptions (js "pug"); EPrepareContent;
               ELoadModule (js "pug"); ERunModule (js "pug")]
           {| m_index := 0; m_full := js "<template lang=pug>x</template>";
              m_attrs := js " lang=pug"; m_inner := Some (js "x") |}
           {| p_code := js "<p>x</p>"; p_map := None;
              p_dependencies := Some [js "mixins.pug"];
              p_diagnostics := None |});
    vm_compute; reflexivity.
Defined.

Lemma lazy_attrs_first (tag s : jsstr) (p fuel q : nat) (r : option nat) :
  lazy_attrs tag s p fuel = Some (q, r) ->
  q <= p + fuel /\ forall q', p <= q' < q -> alternation tag s q' = None.
Proof.
  revert p; induction fuel as [|f IH]; intros p; simpl;
    destruct (alternation tag s p) eqn:E.
  - intros [= <- <-]. split; [lia|]. intros; lia.
  - done.
  - intros [= <- <-]. split; [lia|]. intros; lia.
  - intros H. destruct (IH (S p) H) as [Hq Hr]. split; [lia|].
    intros q' Hq'. destruct (decide (q' = p)) as [->|]; [done|]. apply Hr. lia.
Qed.

Lemma close_greedy_none (tag s : jsstr) (st M : nat) :
  close_greedy tag s st M = None ->
  forall k, k <= M -> starts_with (close_tag tag) (drop (st + k) s) = false.
Proof.
  induction M as [|M IH]; intros H k Hk; cbn [close_greedy] in H;
    destruct (starts_with (close_tag tag) (drop (st + _) s)) eqn:E; try done.
  - by replace k with 0 by lia.
  - destruct (decide (k = S M)) as [->|]; [done|]. apply IH; [done|lia].
Qed.

Lemma alternation_none (tag s : jsstr) (q : nat) :
  alternation tag s q = None ->
  starts_with (js "/>") (drop q s) = false /\
  (starts_with (js ">") (drop q s) = true ->
   forall k, q < k -> starts_with (close_tag tag) (drop k s) = false).
Proof.
  unfold alternation. intros H.
  destruct (starts_with (js ">") (drop q s)) eqn:Eg.
  - destruct (close_greedy tag s (S q) (length s - S q)) eqn:Ec; [done|].
    destruct (starts_with (js "/>") (drop q s)); [done|]. split; [done|].
    intros _ k Hk. destruct (decide (k <= S q + (length s - S q))).
    + replace k with (S q + (k - S q)) by lia.
      apply (close_greedy_none _ _ _ _ Ec). lia.
    + rewrite drop_ge by lia. apply starts_with_close_nil.
  - destruct (starts_with (js "/>") (drop q s)); [done|]. split; done.
Qed.

(** The lazy attribute group ends at the first position where the container
    can end: before it, no [/>] starts, and no [>] starts that a closing tag
    follows. *)
Lemma markup_match_attrs_lazy (tag s : jsstr) (m : regex_match) :
  markup_match tag s = Some m ->
  forall q, m_index m + length (open_tag tag) <= q <
            m_index m + length (open_tag tag) + length (m_attrs m) ->
  starts_with (js "/>") (drop q s) = false /\
  (starts_with (js ">") (drop q s) = true ->
   forall k, q < k -> starts_with (close_tag tag) (drop k s) = false).
Proof.
  unfold markup_match. intros H.
  apply search_from_spec in H as (i & _ & H). unfold match_at in H.
  destruct (starts_with (open_tag tag) (drop i s)) eqn:Eo; [|done].
  destruct (lazy_attrs tag s (i + length (open_tag tag))
              (length s - (i + length (open_tag tag)))) as [[p r]|] eqn:El;
    [|done].
  injection H as <-. cbn [m_index m_attrs].
  destruct (slice_prefix (open_tag tag) s i) as [_ Hol]; [done|done|].
  apply lazy_attrs_first in El as [Hp Hfirst].
  rewrite length_slice by lia.
  intros q Hq. apply (alternation_none tag s q). apply Hfirst.
  assert (length (open_tag tag) = S (length tag)) by done. lia.
Qed.

(** C2 (counterexample): in a document with two closing container tags the
    inner group of the match runs to the second one, although the first
    closing tag starts at position 11. *)
Lemma markup_inner_runs_to_last_close :
  markup_match (js "template") (js "<template>a</template>b</template>")
  = Some {| m_index := 0;
            m_full := js "<template>a</template>b</template>";
            m_attrs := [];
            m_inner := Some (js "a</template>b") |} /\
  starts_with (close_tag (js "template"))
    (drop 11 (js "<template>a</template>b</template>")) = true.
Proof. split; vm_compute; reflexivity. Qed.

(** C2 (amended): a match is [<tag attrs>inner</tag>] or the self-closing
    [<tag attrs/>]; the attribute group is lazy: it ends at the first
    position where the container can end, so at no earlier position of the
    attributes does [/>] start, nor a [>] that a closing container tag
    follows; the inner group is greedy: when the match has a closing tag,
    no closing tag of the container starts after the inner span, so the
    inner span ends at the last closing tag of the document. *)
Theorem markup_pattern_inner_greedy (tag s : jsstr) (m : regex_match) :
  plain_tag tag = true ->
  markup_match tag s = Some m ->
  (forall q, m_index m + length (open_tag tag) <= q <
             m_index m + length (open_tag tag) + length (m_attrs m) ->
   starts_with (js "/>") (drop q s) = false /\
   (starts_with (js ">") (drop q s) = true ->
    forall k, q < k -> starts_with (close_tag tag) (drop k s) = false)) /\
  match m_inner m with
  | Some inner =>
      m_full m = open_tag tag ++ m_attrs m ++ js ">" ++ inner ++ close_tag tag /\
      forall q, m_index m + length (m_full m) - length (close_tag tag) < q ->
                starts_with (close_tag tag) (drop q s) = false
  | None => m_full m = open_tag tag ++ m_attrs m ++ js "/>"
  end.
Proof.
  intros _ H. split.
  - apply (markup_match_attrs_lazy _ _ _ H).
  - apply markup_match_shape in H as (_ & _ & _ & H). exact H.
Qed.

Lemma markup_pattern_inner_greedy_witness :
  (forall q, 0 + length (open_tag (js "template")) <= q <
             0 + length (open_tag (js "template")) + length (js " a") ->
   starts_with (js "/>") (drop q (js "<template a>b</template>c</template>"))
     = false /\
   (starts_with (js ">") (drop q (js "<template a>b</template>c</template>"))
      = true ->
    forall k, q < k ->
    starts_with (close_tag (js "template"))
      (drop k (js "<template a>b</template>c</template>")) = false)) /\
  js "<template a>b</template>c</template>"
  = open_tag (js "template") ++ js " a" ++ js ">" ++ js "b</template>c"
    ++ close_tag (js "template") /\
  forall q, 0 + length (js "<template a>b</template>c</template>")
              - length (close_tag (js "template")) < q ->
            starts_with (close_tag (js "template"))
              (drop q (js "<template a>b</template>c</template>")) = false.
Proof.
  exact (markup_pattern_inner_greedy (js "template")
           (js "<template a>b</template>c</template>")
           {| m_index := 0;
              m_full := js "<template a>b</template>c</template>";
              m_attrs := js " a";
              m_inner := Some (js "b</template>c") |}
           ltac:(vm_compute; reflexivity) ltac:(vm_compute; reflexivity)).
Defined.

(** C3 (counterexample): the pattern is case-sensitive. With the default
    tag name, a container written [<TEMPLATE>] is not matched and the whole
    document goes to the markup pipeline; a configured name [Template] is
    lowercased, so the document's [<Template>] is not matched either. *)
Lemma markup_tag_other_case_not_matched :
  markup_match (markupTagName cfg_default) (js "<TEMPLATE>x</TEMPLATE>")
    = None /\
  markup cfg_default demo_env (js "<TEMPLATE>x</TEMPLATE>") None
    = markupTransformer cfg_default demo_env
        {| sf_content := Some (js "<TEMPLATE>x</TEMPLATE>");
           sf_attributes := ∅; sf_filename := None |} /\
  markupTagName (cfg_tag (js "Template")) = js "template" /\
  markup_match (markupTagName (cfg_tag (js "Template")))
    (js "<Template>x</Template>") = None.
Proof. repeat split; vm_compute; reflexivity. Qed.

Lemma lower_unit_not_upper (c : N) :
  (65 <=? lower_unit c)%N && (lower_unit c <=? 90)%N = false.
Proof.
  unfold lower_unit.
  destruct (65 <=? c)%N eqn:E1, (c <=? 90)%N eqn:E2; cbn [andb];
    rewrite ?E1, ?E2; try done;
    apply andb_false_iff;
    repeat match goal with H : (_ <=? _)%N = _ |- _ =>
             first [apply N.leb_le in H | apply N.leb_gt in H] end;
    first [left; apply N.leb_gt; lia | right; apply N.leb_gt; lia].
Qed.

(** C3 (amended): for a configured name whose lowercased form is a plain
    tag name, the name is lowercased once (the name the pattern is built
    from has no upper-case letter), and the pattern compares the document
    with that lowercased name as it is: every match starts with ["<"] and
    the lowercased name, and a document in which ["<"] followed by the
    lowercased name does not occur, such as one whose container is written
    in another letter case, is not matched and goes whole to the markup
    pipeline. *)
Theorem markup_tag_lowercased_case_sensitive (cfg : config) (E : env)
    (document : jsstr) (filename : option jsstr) :
  plain_tag (markupTagName cfg) = true ->
  forallb (fun c => negb ((65 <=? c)%N && (c <=? 90)%N)) (markupTagName cfg)
    = true /\
  (forall m, markup_match (markupTagName cfg) document = Some m ->
     starts_with (open_tag (markupTagName cfg)) (drop (m_index m) document)
     = true) /\
  (contains (open_tag (markupTagName cfg)) document = false ->
   markupSplice cfg E document filename
   = markupTransformer cfg E {| sf_content := Some document;
                                sf_attributes := ∅;
                                sf_filename := filename |}).
Proof.
  intros _. split; [|split].
  - unfold markupTagName, to_lower.
    induction (default (js "template") (cfg_markupTagName cfg)) as [|c t IH];
      [done|].
    cbn [map forallb]. rewrite lower_unit_not_upper, IH. done.
  - intros m Hm. apply markup_match_shape in Hm as [H _]. exact H.
  - intros Hc. unfold markupSplice.
    destruct (markup_match (markupTagName cfg) document) as [m|] eqn:Hm;
      [|reflexivity].
    apply markup_match_shape in Hm as [H _].
    rewrite (contains_false _ _ (m_index m)) in H; [done|done|done].
Qed.

Lemma markup_tag_lowercased_case_sensitive_witness :
  markupSplice (cfg_tag (js "Template")) demo_env
    (js "<Template>x</Template>") None
  = markupTransformer (cfg_tag (js "Template")) demo_env
      {| sf_content := Some (js "<Template>x</Template>");
         sf_attributes := ∅; sf_filename := None |}.
Proof.
  apply (proj2 (proj2 (markup_tag_lowercased_case_sensitive
                          (cfg_tag (js "Template")) demo_env
                          (js "<Template>x</Template>") None
                          ltac:(vm_compute; reflexivity)))).
  vm_compute. reflexivity.
Defined.



(** Without a [replace] entry the document is the content itself. *)
Lemma replacePass_without_replace (cfg : config) (E : env) (content : jsstr)
    (filename : option jsstr) :
  truthy (bag cfg (js "replace")) = false ->
  replacePass cfg E content filename = ([], Ok content).
Proof. intros H. unfold replacePass. rewrite H. reflexivity. Qed.

(** ** The per-block pipeline *)

(** C5: a block whose effective language or alias is in the preserve list
    comes back as [{code: content}]: its content unchanged, no dependencies,
    and nothing else done (no option resolution, no content preparation, no
    transformer). *)
Theorem pipeline_preserve_passthrough (cfg : config) (E : env)
    (t : block_type) (target : jsstr) (sf : svelte_file)
    (lang alias : option jsstr) :
  effective_lang cfg E t (getTagInfo E sf) = (lang, alias) ->
  (exists l, lang = Some l /\ l ∈ preserve cfg) \/
  (exists a, alias = Some a /\ a ∈ preserve cfg) ->
  getTransformerTo cfg E t target sf
  = ([], Ok (code_only (ti_content (getTagInfo E sf)))).
Proof.
  intros He Hp. unfold getTransformerTo. cbv zeta. rewrite He.
  assert (includes cfg lang || includes cfg alias = true) as ->.
  { destruct Hp as [(l & -> & Hl)|(a & -> & Ha)]; unfold includes.
    - rewrite bool_decide_eq_true_2 by done. done.
    - rewrite bool_decide_eq_true_2 by done. apply orb_true_r. }
  reflexivity.
Qed.

Lemma pipeline_preserve_passthrough_witness :
  cssTransformer cfg_preserve_css demo_env (sf_css (js "a{}"))
  = ([], Ok (code_only (js "a{}"))).
Proof.
  apply (pipeline_preserve_passthrough cfg_preserve_css demo_env Style
           (js "css") (sf_css (js "a{}")) (Some (js "css")) (Some (js "css"))).
  - vm_compute. reflexivity.
  - left. exists (js "css"). split; [reflexivity|].
    apply (bool_decide_eq_true _). vm_compute. reflexivity.
Defined.

(** C4 (counterexample): a [css] style block, with the dependency
    [a.css], comes back from the [css] pipeline without that dependency
    when [css] is in the preserve list; and with the spec's content
    preparation, a block starting with a byte-order mark comes back
    without it. *)
Lemma pipeline_target_language_not_verbatim :
  cssTransformer cfg_preserve_css demo_env (sf_css (js "a{}"))
    = ([], Ok (code_only (js "a{}"))) /\
  ti_dependencies (getTagInfo demo_env (sf_css (js "a{}"))) = [js "a.css"] /\
  cssTransformer cfg_default demo_env_bom (sf_css (65279%N :: js "a{}"))
    = ([EResolveOptions (js "css"); EPrepareContent],
       Ok {| p_code := js "a{}"; p_map := None;
             p_dependencies := Some [js "a.css"]; p_diagnostics := None |}).
Proof. repeat split; vm_compute; reflexivity. Qed.

(** C4 (amended): a block whose effective language is the target language
    comes back, when neither its language nor its alias is preserved, with
    the prepared content (the content after [prepareContent] under the
    resolved options) as code and with its own dependencies, the trace
    showing that no transformer module is loaded or run and no function
    option called; when its language or alias is preserved, it follows the
    preserve rule: [{code: content}], no dependencies, nothing done.  The
    language and the alias are names that are not inherited object
    properties, so the option bag is read as the model reads it. *)
Theorem pipeline_target_language_prepared (cfg : config) (E : env)
    (t : block_type) (target : jsstr) (sf : svelte_file)
    (alias : option jsstr) :
  effective_lang cfg E t (getTagInfo E sf) = (Some target, alias) ->
  inherited_key target = false ->
  inherited_key (js_key alias) = false ->
  getTransformerTo cfg E t target sf
  = if includes cfg (Some target) || includes cfg alias
    then ([], Ok (code_only (ti_content (getTagInfo E sf))))
    else ([EResolveOptions target; EPrepareContent],
          Ok {| p_code := prepareContent E
                            (getTransformerOptions cfg E (Some target) alias)
                            (ti_content (getTagInfo E sf));
                p_map := None;
                p_dependencies := Some (ti_dependencies (getTagInfo E sf));
                p_diagnostics := None |}).
Proof.
  intros He _ _. unfold getTransformerTo. cbv zeta. rewrite He.
  destruct (includes cfg (Some target) || includes cfg alias); [done|].
  cbn -[getTransformerOptions].
  rewrite bool_decide_eq_true_2 by done. reflexivity.
Qed.

Lemma pipeline_target_language_prepared_witness :
  cssTransformer cfg_default demo_env_bom (sf_css (65279%N :: js "a{}"))
  = if includes cfg_default (Some (js "css")) || includes cfg_default (Some (js "css"))
    then ([], Ok (code_only (ti_content (getTagInfo demo_env_bom
                                           (sf_css (65279%N :: js "a{}"))))))
    else ([EResolveOptions (js "css"); EPrepareContent],
          Ok {| p_code := prepareContent demo_env_bom
                            (getTransformerOptions cfg_default demo_env_bom
                               (Some (js "css")) (Some (js "css")))
                            (ti_content (getTagInfo demo_env_bom
                                           (sf_css (65279%N :: js "a{}"))));
                p_map := None;
                p_dependencies := Some (ti_dependencies (getTagInfo demo_env_bom
                                           (sf_css (65279%N :: js "a{}"))));
                p_diagnostics := None |}).
Proof.
  apply (pipeline_target_language_prepared cfg_default demo_env_bom Style
           (js "css") (sf_css (65279%N :: js "a{}")) (Some (js "css")));
    vm_compute; reflexivity.
Defined.

(** C9 (code bug): with [defaults: {markup: undefined}] the spread
    [{markup: 'html', ...defaults}] makes the markup default undefined,
    although [defaultLanguages] is declared with string fields and is meant
    to fall back to ['html']; a markup block without [lang] then keeps a
    null language and alias, and the pipeline looks for the transformer
    module [undefined]. *)
Lemma effective_lang_null_with_undefined_default :
  effective_lang cfg_markup_undefined demo_env Markup
    (getTagInfo demo_env sf_plain) = (None, None) /\
  snd (markupTransformer cfg_markup_undefined demo_env sf_plain)
    = Err (TransformerNotFound (js "undefined")).
Proof. split; vm_compute; reflexivity. Qed.

(** When the category's default language is a string (it is
    unless the [defaults] option sets that category to undefined), the
    effective language and alias of every block are non-null; a block
    without [lang] or [alias] gets the default as alias and, as language,
    the dictionary's canonical name for it, the alias itself when it is
    unmapped. *)
Theorem effective_lang_falls_back (cfg : config) (E : env) (t : block_type)
    (ti : tag_info) (d : jsstr) :
  defaultLanguage cfg t = Some d ->
  exists lang alias,
    effective_lang cfg E t ti = (Some lang, Some alias) /\
    (ti_lang ti = None \/ ti_alias ti = None ->
     alias = d /\ lang = default d (language_dict E !! d) /\
     (language_dict E !! d = None -> lang = d)).
Proof.
  intros Hd. unfold effective_lang.
  destruct (ti_lang ti) as [l|], (ti_alias ti) as [a|];
    try (rewrite Hd; cbn [getLanguageFromAlias];
         eexists _, _; split; [reflexivity|];
         intros _; split; [done|]; split; [done|];
         intros ->; done).
  exists l, a. split; [done|]. intros [?|?]; done.
Qed.

Lemma effective_lang_falls_back_witness :
  exists lang alias,
    effective_lang cfg_default demo_env Style (getTagInfo demo_env sf_plain)
      = (Some lang, Some alias) /\
    (ti_lang (getTagInfo demo_env sf_plain) = None \/
     ti_alias (getTagInfo demo_env sf_plain) = None ->
     alias = js "css" /\
     lang = default (js "css") (language_dict demo_env !! js "css") /\
     (language_dict demo_env !! js "css" = None -> lang = js "css")).
Proof.
  apply (effective_lang_falls_back cfg_default demo_env Style
           (getTagInfo demo_env sf_plain) (js "css")).
  reflexivity.
Defined.

(** ** The transformer invoker *)

(** C8: with the disabling marker [false], [runTransformer] resolves to
    [{code: content}] (content unchanged, no dependencies) with an empty
    trace: no module is loaded; with a function option it calls the
    function on [{content, map, filename, attributes}] and returns its
    result as it is, loading no module. *)
Theorem runTransformer_false_and_function
    (mods : jsstr -> option transformer) (name : jsstr) (a : fn_args) :
  runTransformer mods name OFalse a = ([], Ok (code_only (fa_content a))) /\
  forall f : fn_args -> result processed,
    runTransformer mods name (OFun f) a = ([ECallOption], f a).
Proof. split; [reflexivity|]. intros f. reflexivity. Qed.

(** ** The option resolver *)

Lemma sourcemap_step_lookup (cfg : config) (E : env) (name k : jsstr)
    (o : gmap jsstr jsval) :
  sourcemap_leaves cfg E name k ->
  (if sourceMap cfg then
     match SOURCE_MAP_PROP_MAP E !! name with
     | Some (propName, value) => <[propName := value]> o
     | None => o
     end
   else o) !! k = o !! k.
Proof.
  intros [Hs|Hs].
  - rewrite Hs. done.
  - destruct (sourceMap cfg); [|done].
    destruct (SOURCE_MAP_PROP_MAP E !! name) as [[pn pv]|] eqn:Ep; [|done].
    rewrite lookup_insert_ne; [done|]. intros ->. by apply (Hs pv).
Qed.

(** C7: for an alias other than the language name with an entry in
    [ALIAS_OPTION_OVERRIDES], when neither the name-keyed nor the
    alias-keyed option is a function or [false], the resolved options are
    an object that holds the override's key with the override's value, also
    when the user gave no options for the alias, unless the alias-keyed
    object sets that key, which then wins; and every key the alias-keyed
    object sets wins over the name-keyed options (keys the source-map step
    writes aside).  The name and the alias are not inherited object
    properties: for those the source reads the inherited value of the bag
    (a function for all of them but [__proto__]). *)
Theorem alias_override_in_resolved_options (cfg : config) (E : env)
    (name alias : jsstr) (ov : gmap jsstr jsval) (k : jsstr) (v : jsval) :
  name <> alias ->
  inherited_key name = false ->
  inherited_key alias = false ->
  ALIAS_OPTION_OVERRIDES !! alias = Some ov ->
  ov !! k = Some v ->
  (forall f, bag cfg name <> OFun f) ->
  (forall f, bag cfg alias <> OFun f) ->
  bag cfg name <> OFalse ->
  bag cfg alias <> OFalse ->
  sourcemap_leaves cfg E name k ->
  exists opts,
    getTransformerOptions cfg E (Some name) (Some alias) = OObj opts /\
    opts !! k = match bag cfg alias with
                | OObj a => match a !! k with
                            | Some w => Some w
                            | None => Some v
                            end
                | _ => Some v
                end /\
    (forall a k' w, bag cfg alias = OObj a -> a !! k' = Some w ->
                    sourcemap_leaves cfg E name k' -> opts !! k' = Some w).
Proof.
  intros Hne _ _ Hov Hk Hnf Haf Hnfalse Hafalse Hsm.
  unfold getTransformerOptions. cbn [js_key].
  rewrite bool_decide_eq_true_2 by congruence. rewrite Hov. cbn [default].
  destruct (bag cfg alias) as [| | | |f| a |s] eqn:Ea;
    [done| | | |by destruct (Haf f)| |];
  destruct (bag cfg name) as [| | | |g| o |s'] eqn:En;
    try done; try (by destruct (Hnf g)).
  all: eexists; split; [reflexivity|]; cbn [id].
  all: split; [rewrite sourcemap_step_lookup by done; unfold assign;
               rewrite ?lookup_union, ?lookup_empty, Hk;
               repeat match goal with
                      | |- context [?m !! ?x] => destruct (m !! x)
                      end; reflexivity|].
  all: intros a' k' w Ha' Hw Hsm'; try discriminate; injection Ha' as <-;
       rewrite sourcemap_step_lookup by done; unfold assign;
       rewrite ?lookup_union, Hw;
       repeat match goal with
              | |- context [?m !! ?x] => destruct (m !! x)
              end; reflexivity.
Qed.

Lemma alias_override_in_resolved_options_witness :
  exists opts,
    getTransformerOptions cfg_scss demo_env (Some (js "scss")) (Some (js "sass"))
      = OObj opts /\
    opts !! js "indentedSyntax"
      = match bag cfg_scss (js "sass") with
        | OObj a => match a !! js "indentedSyntax" with
                    | Some w => Some w
                    | None => Some (JBool true)
                    end
        | _ => Some (JBool true)
        end /\
    (forall a k' w, bag cfg_scss (js "sass") = OObj a -> a !! k' = Some w ->
                    sourcemap_leaves cfg_scss demo_env (js "scss") k' ->
                    opts !! k' = Some w).
Proof.
  apply (alias_override_in_resolved_options cfg_scss demo_env (js "scss")
           (js "sass") {[ js "indentedSyntax" := JBool true ]}
           (js "indentedSyntax") (JBool true)).
  - apply (bool_decide_eq_false _). vm_compute. reflexivity.
  - vm_compute. reflexivity.
  - vm_compute. reflexivity.
  - vm_compute. reflexivity.
  - vm_compute. reflexivity.
  - intros f. vm_compute. discriminate.
  - intros f. vm_compute. discriminate.
  - vm_compute. discriminate.
  - vm_compute. discriminate.
  - left. reflexivity.
Defined.

(** ** The style entry point *)

(** C10: [style] reports the dependencies of the style pipeline, merged
    with those of the postcss stage when that stage runs; the global-style
    stage gives the code and the map of the result, and whatever
    dependencies it reports are dropped. *)
Theorem style_dependencies_skip_globalStyle (cfg : config) (E : env)
    (content : jsstr) (attributes : gmap jsstr attr_value)
    (filename : option jsstr) (l1 : list event) (r : processed) :
  cssTransformer cfg E {| sf_content := Some content;
                          sf_attributes := attributes;
                          sf_filename := filename |} = (l1, Ok r) ->
  (postcss_installed E = false ->
   snd (style cfg E content attributes filename)
   = Ok {| p_code := p_code r; p_map := p_map r;
           p_dependencies := p_dependencies r; p_diagnostics := None |}) /\
  (postcss_installed E = true ->
   truthy (bag cfg (js "postcss")) = false ->
   forall l3 g,
     runTransformer (modules E) (js "globalStyle")
       (getTransformerOptions cfg E (Some (js "globalStyle")) None)
       {| fa_content := p_code r; fa_map := p_map r; fa_filename := filename;
          fa_attributes := Some attributes |} = (l3, Ok g) ->
     snd (style cfg E content attributes filename)
     = Ok {| p_code := p_code g; p_map := p_map g;
             p_dependencies := p_dependencies r; p_diagnostics := None |}) /\
  (postcss_installed E = true ->
   truthy (bag cfg (js "postcss")) = true ->
   forall l2 t l3 g,
     runTransformer (modules E) (js "postcss")
       (getTransformerOptions cfg E (Some (js "postcss")) None)
       {| fa_content := p_code r; fa_map := p_map r; fa_filename := filename;
          fa_attributes := Some attributes |} = (l2, Ok t) ->
     runTransformer (modules E) (js "globalStyle")
       (getTransformerOptions cfg E (Some (js "globalStyle")) None)
       {| fa_content := p_code t; fa_map := p_map t; fa_filename := filename;
          fa_attributes := Some attributes |} = (l3, Ok g) ->
     snd (style cfg E content attributes filename)
     = Ok {| p_code := p_code g; p_map := p_map g;
             p_dependencies := concat (p_dependencies r) (p_dependencies t);
             p_diagnostics := None |}).
Proof.
  intros H1. split; [|split].
  - intros Hi. unfold style. rewrite H1. cbn -[cssTransformer].
    rewrite Hi. reflexivity.
  - intros Hi Hp l3 g Hg. unfold style. rewrite H1.
    cbn -[cssTransformer postcssStage runTransformer getTransformerOptions js].
    rewrite Hi. unfold postcssStage. rewrite Hp.
    cbn -[runTransformer getTransformerOptions js]. rewrite Hg. reflexivity.
  - intros Hi Hp l2 t l3 g Ht Hg. unfold style. rewrite H1.
    cbn -[cssTransformer postcssStage runTransformer getTransformerOptions js].
    rewrite Hi. unfold postcssStage. rewrite Hp.
    cbn -[runTransformer getTransformerOptions js]. rewrite Ht.
    cbn -[runTransformer getTransformerOptions js]. rewrite Hg. reflexivity.
Qed.

Lemma style_dependencies_skip_globalStyle_witness :
  snd (style cfg_postcss demo_env_style (js "a{}") ∅ (Some (js "a.css")))
  = Ok {| p_code := js "G"; p_map := None;
          p_dependencies := concat (Some [js "a.css"]) (Some [js "post.dep"]);
          p_diagnostics := None |}.
Proof.
  refine (proj2 (proj2 (style_dependencies_skip_globalStyle cfg_postcss
            demo_env_style (js "a{}") ∅ (Some (js "a.css"))
            [EResolveOptions (js "css"); EPrepareContent]
            {| p_code := js "a{}"; p_map := None;
               p_dependencies := Some [js "a.css"]; p_diagnostics := None |}
            _)) _ _
            [ELoadModule (js "postcss"); ERunModule (js "postcss")]
            {| p_code := js "P"; p_map := None;
               p_dependencies := Some [js "post.dep"]; p_diagnostics := None |}
            [ELoadModule (js "globalStyle"); ERunModule (js "globalStyle")]
            {| p_code := js "G"; p_map := None;
               p_dependencies := Some [js "global.dep"]; p_diagnostics := None |}
            _ _); vm_compute; reflexivity.
Defined.

(** ** Attribute parsing (markup, lines 286-297) *)

Lemma split_on_nonempty (sep : N -> bool) (s : jsstr) : split_on sep s <> [].
Proof.
  induction s as [|c s IH]; simpl; [done|].
  destruct (sep c); [done|]. destruct (split_on sep s); done.
Qed.

Lemma split_on_app (sep : N -> bool) (s1 s2 : jsstr) (c : N) :
  sep c = true ->
  split_on sep (s1 ++ c :: s2) = split_on sep s1 ++ split_on sep s2.
Proof.
  intros Hc. induction s1 as [|d s1 IH]; simpl.
  - rewrite Hc. done.
  - rewrite IH. destruct (sep d); [done|].
    destruct (split_on sep s1) as [|w ws] eqn:E.
    + by destruct (split_on_nonempty sep s1).
    + done.
Qed.

Lemma split_on_none (sep : N -> bool) (s : jsstr) :
  forallb (fun c => negb (sep c)) s = true -> split_on sep s = [s].
Proof.
  induction s as [|c s IH]; simpl; [done|].
  intros [Hc Hs]%andb_true_iff. rewrite IH by done.
  destruct (sep c); done.
Qed.

Lemma split_on_all (sep : N -> bool) (s : jsstr) :
  forallb sep s = true -> Forall (fun w => w = []) (split_on sep s).
Proof.
  induction s as [|c s IH]; simpl.
  - intros _. by constructor.
  - intros [Hc Hs]%andb_true_iff. rewrite Hc. constructor; auto.
Qed.

Lemma parse_attributes_snoc (s1 tok : jsstr) :
  tok <> [] -> forallb (fun c => negb (js_space c)) tok = true ->
  parse_attributes (s1 ++ 32%N :: tok) = add_attr (parse_attributes s1) tok.
Proof.
  intros Hne Hws. unfold parse_attributes.
  rewrite (split_on_app js_space s1 tok 32%N eq_refl), (split_on_none _ _ Hws).
  rewrite filter_app, foldl_app, filter_cons_True by (rewrite bool_decide_eq_true_2; done).
  reflexivity.
Qed.


Lemma split_on_eq_pair (name value : jsstr) :
  forallb (fun c => negb (N.eqb 61 c)) name = true ->
  forallb (fun c => negb (N.eqb 61 c)) value = true ->
  split_on (N.eqb 61) (name ++ 61%N :: value) = [name; value].
Proof.
  intros Hn Hv. rewrite (split_on_app _ name value 61%N eq_refl).
  rewrite (split_on_none _ _ Hn), (split_on_none _ _ Hv). done.
Qed.

Lemma forallb_and_r {A} (f g : A -> bool) (l : list A) :
  forallb (fun c => f c && g c) l = true -> forallb g l = true.
Proof.
  induction l as [|x l IH]; simpl; [done|].
  intros [[_ Hg]%andb_true_iff Hl]%andb_true_iff. by rewrite Hg, IH.
Qed.

Lemma forallb_and_l {A} (f g : A -> bool) (l : list A) :
  forallb (fun c => f c && g c) l = true -> forallb f l = true.
Proof.
  induction l as [|x l IH]; simpl; [done|].
  intros [[Hf _]%andb_true_iff Hl]%andb_true_iff. by rewrite Hf, IH.
Qed.

Lemma set_attr_lookup (acc : gmap jsstr attr_value) (name : jsstr)
    (v : attr_value) :
  name <> js "__proto__" -> set_attr acc name v !! name = Some v.
Proof.
  intros H. unfold set_attr. rewrite bool_decide_eq_false_2 by done.
  apply lookup_insert_eq.
Qed.

(** The last [name=value] token of the attribute string decides the entry of
    [name], for a name other than [__proto__]: the value with its quote
    characters removed, or [true] for an empty value. *)
Theorem parse_attributes_last_assignment (s1 name value : jsstr) :
  name <> js "__proto__" ->
  forallb (fun c => negb (js_space c) && negb (N.eqb 61 c)) name = true ->
  forallb (fun c => negb (js_space c) && negb (N.eqb 61 c)) value = true ->
  parse_attributes (s1 ++ 32%N :: name ++ 61%N :: value) !! name =
  Some (match value with [] => ATrue | _ => AStr (strip_quotes value) end).
Proof.
  intros Hp Hn Hv. rewrite parse_attributes_snoc.
  - unfold add_attr.
    rewrite (split_on_eq_pair _ _ (forallb_and_r _ _ _ Hn) (forallb_and_r _ _ _ Hv)).
    destruct value; by apply set_attr_lookup.
  - by destruct name.
  - rewrite forallb_app. simpl.
    rewrite (forallb_and_l _ _ _ Hn), (forallb_and_l _ _ _ Hv). done.
Qed.

Lemma parse_attributes_last_assignment_witness :
  parse_attributes (js " lang=ts" ++ 32%N :: js "lang" ++ 61%N :: js "'scss'")
    !! js "lang" = Some (AStr (js "scss")).
Proof.
  apply (parse_attributes_last_assignment (js " lang=ts") (js "lang")
           (js "'scss'")).
  - vm_compute. discriminate.
  - reflexivity.
  - reflexivity.
Defined.

(** A token without [=] gives the attribute the value [true], for a name
    other than [__proto__]. *)
Theorem parse_attributes_bare_name (s1 name : jsstr) :
  name <> [] -> name <> js "__proto__" ->
  forallb (fun c => negb (js_space c) && negb (N.eqb 61 c)) name = true ->
  parse_attributes (s1 ++ 32%N :: name) !! name = Some ATrue.
Proof.
  intros Hne Hp Hn. rewrite parse_attributes_snoc.
  - unfold add_attr.
    rewrite (split_on_none _ _ (forallb_and_r _ _ _ Hn)).
    by apply set_attr_lookup.
  - done.
  - apply (forallb_and_l _ _ _ Hn).
Qed.

Lemma parse_attributes_bare_name_witness :
  parse_attributes (js " lang=ts" ++ 32%N :: js "global") !! js "global"
  = Some ATrue.
Proof.
  apply (parse_attributes_bare_name (js " lang=ts") (js "global")).
  - vm_compute. discriminate.
  - vm_compute. discriminate.
  - reflexivity.
Defined.

(** [attr.split('=')] keeps the first two pieces only: in [a=b=c] the value
    is [b]. *)
Theorem add_attr_drops_after_second_eq (acc : gmap jsstr attr_value)
    (name v1 v2 : jsstr) :
  forallb (fun c => negb (N.eqb 61 c)) name = true ->
  forallb (fun c => negb (N.eqb 61 c)) v1 = true ->
  add_attr acc (name ++ 61%N :: v1 ++ 61%N :: v2)
  = add_attr acc (name ++ 61%N :: v1).
Proof.
  intros Hn Hv. unfold add_attr.
  rewrite (split_on_eq_pair _ _ Hn Hv).
  rewrite (split_on_app _ name (v1 ++ 61%N :: v2) 61%N eq_refl).
  rewrite (split_on_app _ v1 v2 61%N eq_refl).
  rewrite (split_on_none _ _ Hn), (split_on_none _ _ Hv). simpl.
  destruct (split_on (N.eqb 61) v2) as [|w ws] eqn:E;
    [by destruct (split_on_nonempty (N.eqb 61) v2)|].
  done.
Qed.

Lemma add_attr_drops_after_second_eq_witness :
  add_attr ∅ (js "a" ++ 61%N :: js "b" ++ 61%N :: js "c")
  = add_attr ∅ (js "a" ++ 61%N :: js "b").
Proof.
  apply add_attr_drops_after_second_eq; reflexivity.
Defined.

(** An attribute string made of white space only gives no attribute. *)
Theorem parse_attributes_blank_empty (s : jsstr) :
  forallb js_space s = true -> parse_attributes s = ∅.
Proof.
  intros H. unfold parse_attributes.
  induction (split_on_all _ _ H) as [|w ws Hw _ IH]; [done|].
  rewrite filter_cons_False; [done|]. subst w. intros Hx%bool_decide_unpack; done.
Qed.

Lemma parse_attributes_blank_empty_witness :
  parse_attributes [32%N; 9%N; 10%N] = ∅.
Proof. apply parse_attributes_blank_empty. reflexivity. Defined.

(** ** runTransformer and getTransformerOptions *)

(** An option that is neither [false] nor a function, with no transformer
    module of the name, fails with the module not found, after the import
    was attempted. *)
Theorem runTransformer_module_missing (mods : jsstr -> option transformer)
    (name : jsstr) (options : optval) (a : fn_args) :
  options <> OFalse -> (forall f, options <> OFun f) -> mods name = None ->
  runTransformer mods name options a
  = ([ELoadModule name], Err (TransformerNotFound name)).
Proof.
  intros Hf Hfun Hm. unfold runTransformer.
  destruct options; try done; try (by destruct (Hfun f)); rewrite Hm; done.
Qed.

Lemma runTransformer_module_missing_witness :
  runTransformer (modules demo_env) (js "coffeescript") OTrue
    {| fa_content := js "x = 1"; fa_map := None; fa_filename := None;
       fa_attributes := None |}
  = ([ELoadModule (js "coffeescript")],
     Err (TransformerNotFound (js "coffeescript"))).
Proof.
  apply runTransformer_module_missing.
  - discriminate.
  - intros f. discriminate.
  - vm_compute. reflexivity.
Defined.

(** The option [true] reaches the transformer module as [null]. *)
Theorem runTransformer_true_as_null (mods : jsstr -> option transformer)
    (name : jsstr) (a : fn_args) :
  runTransformer mods name OTrue a = runTransformer mods name ONull a.
Proof. unfold runTransformer. by destruct (mods name). Qed.

(** A function under the alias is returned, whatever is under the name. *)
Theorem getTransformerOptions_alias_function (cfg : config) (E : env)
    (name alias : option jsstr) f :
  bag cfg (js_key alias) = OFun f ->
  getTransformerOptions cfg E name alias = OFun f.
Proof. intros H. unfold getTransformerOptions. by rewrite H. Qed.

(** Without a function under the alias, a function under the name is
    returned, even when the alias is set to [false]; for a name and an alias
    that are not inherited property names of a plain object. *)
Theorem getTransformerOptions_name_function (cfg : config) (E : env)
    (name alias : option jsstr) f :
  inherited_key (js_key name) = false ->
  inherited_key (js_key alias) = false ->
  (forall g, bag cfg (js_key alias) <> OFun g) ->
  bag cfg (js_key name) = OFun f ->
  getTransformerOptions cfg E name alias = OFun f.
Proof.
  intros _ _ Ha H. unfold getTransformerOptions. rewrite H.
  destruct (bag cfg (js_key alias)); try done. by destruct (Ha f0).
Qed.

Lemma getTransformerOptions_name_function_witness :
  getTransformerOptions
    (cfg_bag false {[ js "pcss" := OFalse; js "postcss" := OFun demo_fn ]})
    demo_env (Some (js "postcss")) (Some (js "pcss"))
  = OFun demo_fn.
Proof.
  apply getTransformerOptions_name_function.
  - vm_compute. reflexivity.
  - vm_compute. reflexivity.
  - intros g. vm_compute. discriminate.
  - vm_compute. reflexivity.
Defined.

Lemma getTransformerOptions_alias_function_witness :
  getTransformerOptions
    (cfg_bag false {[ js "pcss" := OFun demo_fn; js "postcss" := OFalse ]})
    demo_env (Some (js "postcss")) (Some (js "pcss"))
  = OFun demo_fn.
Proof.
  apply getTransformerOptions_alias_function. vm_compute. reflexivity.
Defined.

(** Without functions, [false] under the name or the alias disables the
    transformer; for a name and an alias that are not inherited property
    names of a plain object. *)
Theorem getTransformerOptions_false (cfg : config) (E : env)
    (name alias : option jsstr) :
  inherited_key (js_key name) = false ->
  inherited_key (js_key alias) = false ->
  (forall g, bag cfg (js_key alias) <> OFun g) ->
  (forall g, bag cfg (js_key name) <> OFun g) ->
  bag cfg (js_key alias) = OFalse \/ bag cfg (js_key name) = OFalse ->
  getTransformerOptions cfg E name alias = OFalse.
Proof.
  intros _ _ Ha Hn Hf. unfold getTransformerOptions.
  destruct (bag cfg (js_key alias)) eqn:EA;
    destruct (bag cfg (js_key name)) eqn:EN;
    try (exfalso; by apply (Ha f)); try (exfalso; by apply (Hn f)); try done;
    destruct Hf; congruence.
Qed.

Lemma getTransformerOptions_false_witness :
  getTransformerOptions
    (cfg_bag false {[ js "pcss" := OObj ∅; js "postcss" := OFalse ]})
    demo_env (Some (js "postcss")) (Some (js "pcss"))
  = OFalse.
Proof.
  apply getTransformerOptions_false.
  - vm_compute. reflexivity.
  - vm_compute. reflexivity.
  - intros g. vm_compute. discriminate.
  - intros g. vm_compute. discriminate.
  - right. vm_compute. reflexivity.
Defined.

(** The resolved options are a function, [false] or an options object; never
    [true], undefined, null or a string. *)
Theorem getTransformerOptions_shape (cfg : config) (E : env)
    (name alias : option jsstr) :
  match getTransformerOptions cfg E name alias with
  | OFun _ | OFalse | OObj _ => True
  | OTrue | OUndef | ONull | OOther _ => False
  end.
Proof.
  unfold getTransformerOptions.
  destruct (bag cfg (js_key alias)), (bag cfg (js_key name)); done.
Qed.

(** When the alias is the name, neither the alias overrides nor the alias
    options are merged: without source maps the result is a copy of the
    name's options object; for a name that is not an inherited property
    name of a plain object. *)
Theorem getTransformerOptions_same_alias (cfg : config) (E : env)
    (lang : option jsstr) :
  inherited_key (js_key lang) = false ->
  sourceMap cfg = false ->
  (forall g, bag cfg (js_key lang) <> OFun g) ->
  bag cfg (js_key lang) <> OFalse ->
  getTransformerOptions cfg E lang lang
  = OObj (match bag cfg (js_key lang) with OObj o => o | _ => ∅ end).
Proof.
  intros _ Hsm Hn Hf. unfold getTransformerOptions.
  rewrite bool_decide_eq_false_2 by tauto. rewrite Hsm.
  destruct (bag cfg (js_key lang)) eqn:EB; try done; try by destruct (Hn f).
  unfold assign. by rewrite map_union_empty.
Qed.

Lemma getTransformerOptions_same_alias_witness :
  getTransformerOptions
    (cfg_bag false {[ js "sass" := OObj {[ js "outputStyle" :=
                                             JStr (js "compressed") ]} ]})
    demo_env (Some (js "sass")) (Some (js "sass"))
  = OObj {[ js "outputStyle" := JStr (js "compressed") ]}.
Proof.
  rewrite (getTransformerOptions_same_alias
             (cfg_bag false {[ js "sass" := OObj {[ js "outputStyle" :=
                                                      JStr (js "compressed") ]} ]})
             demo_env (Some (js "sass"))).
  - vm_compute. reflexivity.
  - vm_compute. reflexivity.
  - reflexivity.
  - intros g. vm_compute. discriminate.
  - vm_compute. discriminate.
Defined.

(** With [sourceMap] on, the source-map property of the language holds its
    configured value in the resolved object, whatever the user options say.
    *)
Theorem getTransformerOptions_sourcemap_prop (cfg : config) (E : env)
    (name alias : option jsstr) (propName : jsstr) (value : jsval)
    (o : gmap jsstr jsval) :
  sourceMap cfg = true ->
  SOURCE_MAP_PROP_MAP E !! js_key name = Some (propName, value) ->
  getTransformerOptions cfg E name alias = OObj o ->
  o !! propName = Some value.
Proof.
  intros Hsm Hp. unfold getTransformerOptions. rewrite Hsm, Hp.
  destruct (bag cfg (js_key alias)), (bag cfg (js_key name));
    try done; intros [= <-]; apply lookup_insert_eq.
Qed.

Lemma getTransformerOptions_sourcemap_prop_witness :
  ({[ js "sourceMap" := JBool true ]} : gmap jsstr jsval) !! js "sourceMap"
  = Some (JBool true).
Proof.
  apply (getTransformerOptions_sourcemap_prop
           (cfg_bag true {[ js "typescript" :=
                              OObj {[ js "sourceMap" := JBool false ]} ]})
           demo_env_sourcemap (Some (js "typescript")) (Some (js "ts"))).
  - reflexivity.
  - vm_compute. reflexivity.
  - vm_compute. reflexivity.
Defined.

(** A key of the alias options object beats the same key of the name options
    and of the alias overrides, unless the source-map step writes it; for a
    name and an alias that are not inherited property names of a plain
    object. *)
Theorem getTransformerOptions_alias_object_wins (cfg : config) (E : env)
    (name alias : option jsstr) (a : gmap jsstr jsval) (k : jsstr)
    (v : jsval) :
  name <> alias ->
  inherited_key (js_key name) = false ->
  inherited_key (js_key alias) = false ->
  bag cfg (js_key alias) = OObj a ->
  (forall g, bag cfg (js_key name) <> OFun g) ->
  bag cfg (js_key name) <> OFalse ->
  a !! k = Some v ->
  sourcemap_leaves cfg E (js_key name) k ->
  exists o, getTransformerOptions cfg E name alias = OObj o /\ o !! k = Some v.
Proof.
  intros Hne _ _ Ha Hn Hf Hk Hsm. unfold getTransformerOptions. rewrite Ha.
  rewrite bool_decide_eq_true_2 by done.
  set (o2 := assign (assign (match bag cfg (js_key name) with
                             | OObj o => assign ∅ o | _ => ∅ end)
                      (default ∅ (ALIAS_OPTION_OVERRIDES !! js_key alias))) a).
  assert (o2 !! k = Some v) as Ho2.
  { unfold o2, assign at 1. by rewrite (lookup_union_Some_l _ _ _ _ Hk). }
  assert (exists o, (if sourceMap cfg then
            match SOURCE_MAP_PROP_MAP E !! js_key name with
            | Some (propName, value) => <[propName:=value]> o2
            | None => o2
            end else o2) = o /\ o !! k = Some v) as (o & Eo & Hok).
  { destruct Hsm as [Hsm|Hsm].
    - rewrite Hsm. eauto.
    - destruct (sourceMap cfg); [|eauto].
      destruct (SOURCE_MAP_PROP_MAP E !! js_key name) as [[p w]|] eqn:Ep;
        [|eauto].
      exists (<[p:=w]> o2). split; [done|].
      rewrite lookup_insert_ne; [done|]. intros ->. by apply (Hsm w). }
  exists o. split; [|done].
  destruct (bag cfg (js_key name)) eqn:EN;
    try (exfalso; by apply (Hn f)); try done; fold o2; by rewrite Eo.
Qed.

Lemma getTransformerOptions_alias_object_wins_witness :
  exists o,
    getTransformerOptions
      (cfg_bag false {[ js "sass" := OObj {[ js "indentedSyntax" :=
                                               JBool false ]};
                        js "scss" := OObj {[ js "indentedSyntax" :=
                                               JBool true ]} ]})
      demo_env (Some (js "scss")) (Some (js "sass")) = OObj o /\
    o !! js "indentedSyntax" = Some (JBool false).
Proof.
  apply (getTransformerOptions_alias_object_wins _ _ _ _
           {[ js "indentedSyntax" := JBool false ]} (js "indentedSyntax")
           (JBool false)).
  - discriminate.
  - vm_compute. reflexivity.
  - vm_compute. reflexivity.
  - vm_compute. reflexivity.
  - intros g. vm_compute. discriminate.
  - vm_compute. discriminate.
  - vm_compute. reflexivity.
  - left. reflexivity.
Defined.

(** ** getTransformerTo, markup, script, style and the babel group *)

Lemma bind_ret_r {A} (x : M A) : bind x ret = x.
Proof. destruct x as [l [a|e]]; simpl; [by rewrite app_nil_r|done]. Qed.

(** A block that is not preserved resolves with the tag's dependencies
    first, followed by the transformer's. *)
Theorem getTransformerTo_dependencies_first (cfg : config) (E : env)
    (t : block_type) (target : jsstr) (sf : svelte_file)
    (l : list event) (r : processed) :
  includes cfg (fst (effective_lang cfg E t (getTagInfo E sf))) = false ->
  includes cfg (snd (effective_lang cfg E t (getTagInfo E sf))) = false ->
  getTransformerTo cfg E t target sf = (l, Ok r) ->
  exists rest, p_dependencies r
               = Some (ti_dependencies (getTagInfo E sf) ++ rest).
Proof.
  unfold getTransformerTo.
  destruct (effective_lang cfg E t (getTagInfo E sf)) as [lang alias].
  cbn [fst snd]. intros -> ->. simpl.
  case_bool_decide.
  - intros [= _ <-]. exists []. by rewrite app_nil_r.
  - match goal with |- context [runTransformer ?m ?n ?o ?a] =>
      destruct (runTransformer m n o a) as [l1 [tr|e]] end; simpl;
      [|done].
    intros [= _ <-]. cbn [p_dependencies].
    destruct (p_dependencies tr) as [d|]; simpl; eauto.
    exists []. by rewrite app_nil_r.
Qed.

Lemma getTransformerTo_dependencies_first_witness :
  exists rest,
    p_dependencies {| p_code := js "a{}"; p_map := None;
                      p_dependencies := Some [js "a.css"];
                      p_diagnostics := None |}
    = Some (ti_dependencies (getTagInfo demo_env (sf_css (js "a{}"))) ++ rest).
Proof.
  apply (getTransformerTo_dependencies_first cfg_default demo_env Style
           (js "css") (sf_css (js "a{}"))
           [EResolveOptions (js "css"); EPrepareContent]).
  - vm_compute. reflexivity.
  - vm_compute. reflexivity.
  - vm_compute. reflexivity.
Defined.

(** [getTransformerTo] fails only through [runTransformer], and only when
    the language differs from the target language; for an effective
    language and alias that are not inherited property names of a plain
    object. *)
Theorem getTransformerTo_error_from_run (cfg : config) (E : env)
    (t : block_type) (target : jsstr) (sf : svelte_file)
    (lang alias : option jsstr) (l : list event) (e : error) :
  effective_lang cfg E t (getTagInfo E sf) = (lang, alias) ->
  inherited_key (js_key lang) = false ->
  inherited_key (js_key alias) = false ->
  getTransformerTo cfg E t target sf = (l, Err e) ->
  lang <> Some target /\
  exists a l',
    runTransformer (modules E) (js_key lang)
      (getTransformerOptions cfg E lang alias) a = (l', Err e).
Proof.
  intros EL _ _. unfold getTransformerTo. rewrite EL.
  destruct (includes cfg lang || includes cfg alias); [done|]. simpl.
  case_bool_decide as Ht; [done|].
  match goal with |- context [runTransformer ?m ?n ?o ?a] =>
    destruct (runTransformer m n o a) as [l1 [tr|e']] eqn:ER end; simpl.
  - done.
  - intros [= _ <-]. eauto 10.
Qed.

Lemma getTransformerTo_error_from_run_witness :
  Some (js "scss") <> Some (js "css") /\
  exists a l',
    runTransformer (modules demo_env) (js "scss")
      (getTransformerOptions cfg_default demo_env (Some (js "scss"))
         (Some (js "scss"))) a
      = (l', Err (TransformerNotFound (js "scss"))).
Proof.
  apply (getTransformerTo_error_from_run cfg_default demo_env Style
           (js "css") sf_scss (Some (js "scss")) (Some (js "scss"))
           [EResolveOptions (js "scss"); EPrepareContent;
            ELoadModule (js "scss")]).
  - vm_compute. reflexivity.
  - vm_compute. reflexivity.
  - vm_compute. reflexivity.
  - vm_compute. reflexivity.
Defined.

(** Without a truthy [babel] entry, [script] resolves with exactly what the
    script pipeline gives. *)
Theorem script_without_babel (cfg : config) (E : env) (content : jsstr)
    (attributes : gmap jsstr attr_value) (filename : option jsstr) :
  truthy (bag cfg (js "babel")) = false ->
  script cfg E content attributes filename
  = scriptTransformer cfg E {| sf_content := Some content;
                               sf_attributes := attributes;
                               sf_filename := filename |}.
Proof.
  intros Hb. unfold script. rewrite Hb. apply bind_ret_r.
Qed.

Lemma script_without_babel_witness :
  script cfg_default demo_env (js "let a") ∅ None
  = scriptTransformer cfg_default demo_env
      {| sf_content := Some (js "let a"); sf_attributes := ∅;
         sf_filename := None |}.
Proof. apply script_without_babel. reflexivity. Defined.

(** [style] never reports diagnostics. *)
Theorem style_no_diagnostics (cfg : config) (E : env) (content : jsstr)
    (attributes : gmap jsstr attr_value) (filename : option jsstr)
    (l : list event) (r : processed) :
  style cfg E content attributes filename = (l, Ok r) ->
  p_diagnostics r = None.
Proof.
  unfold style.
  destruct (cssTransformer cfg E _) as [l0 [r0|e]]; simpl; [|done].
  destruct (postcss_installed E); simpl.
  - destruct (postcssStage cfg E attributes filename r0) as [l1 [r1|e]];
      simpl; [|done].
    destruct (runTransformer _ _ _ _) as [l2 [r2|e]]; simpl; [|done].
    by intros [= _ <-].
  - by intros [= _ <-].
Qed.

Lemma style_no_diagnostics_witness :
  p_diagnostics {| p_code := js "G"; p_map := None;
                   p_dependencies := Some [js "a.svelte"; js "post.dep"];
                   p_diagnostics := None |} = None.
Proof.
  apply (style_no_diagnostics cfg_postcss demo_env_style (js "a{}") ∅
           (Some (js "a.svelte"))
           [EResolveOptions (js "css"); EPrepareContent;
            EResolveOptions (js "postcss"); ELoadModule (js "postcss");
            ERunModule (js "postcss"); EResolveOptions (js "globalStyle");
            ELoadModule (js "globalStyle"); ERunModule (js "globalStyle")]).
  vm_compute. reflexivity.
Defined.



(** The babel group fails with the babel module not found when the module is
    missing, before reading the tag. *)
Theorem babelGroupScript_module_missing (E : env) (options : optval)
    (sf : svelte_file) :
  modules E (js "babel") = None ->
  babelGroupScript E options sf
  = ([ELoadModule (js "babel")], Err (TransformerNotFound (js "babel"))).
Proof. intros H. unfold babelGroupScript. by rewrite H. Qed.

(** The babel group runs babel on every script block, whatever its language.
    *)
Theorem babelGroupScript_always_runs_babel (E : env) (options : optval)
    (sf : svelte_file) (t : transformer) :
  modules E (js "babel") = Some t ->
  fst (babelGroupScript E options sf)
  = [ELoadModule (js "babel"); EPrepareContent; ERunModule (js "babel")].
Proof.
  intros H. unfold babelGroupScript. rewrite H. simpl.
  destruct (t _) as [tr|e]; done.
Qed.

Lemma babelGroupScript_always_runs_babel_witness :
  fst (babelGroupScript demo_env_babel OTrue sf_scss)
  = [ELoadModule (js "babel"); EPrepareContent; ERunModule (js "babel")].
Proof.
  apply (babelGroupScript_always_runs_babel demo_env_babel OTrue sf_scss
           demo_babel).
  vm_compute. reflexivity.
Defined.

Lemma babelGroupScript_module_missing_witness :
  babelGroupScript demo_env OTrue sf_scss
  = ([ELoadModule (js "babel")], Err (TransformerNotFound (js "babel"))).
Proof. apply babelGroupScript_module_missing. vm_compute. reflexivity. Defined.

(** The babel group resolves with the tag's dependencies first, followed by
    babel's. *)
Theorem babelGroupScript_dependencies_first (E : env) (options : optval)
    (sf : svelte_file) (l : list event) (r : processed) :
  babelGroupScript E options sf = (l, Ok r) ->
  exists rest, p_dependencies r
               = Some (ti_dependencies (getTagInfo E sf) ++ rest).
Proof.
  unfold babelGroupScript. destruct (modules E (js "babel")) as [t|]; [|done].
  simpl. destruct (t _) as [tr|e]; simpl; [|done].
  intros [= _ <-]. cbn [p_dependencies].
  destruct (p_dependencies tr); simpl; eauto.
  exists []. by rewrite app_nil_r.
Qed.

Lemma babelGroupScript_dependencies_first_witness :
  exists rest,
    p_dependencies {| p_code := js "a{}"; p_map := None;
                      p_dependencies := Some [js "a.svelte";
                                              js "babel.config.js"];
                      p_diagnostics := Some [js "unused variable"] |}
    = Some (ti_dependencies (getTagInfo demo_env_babel sf_scss) ++ rest).
Proof.
  apply (babelGroupScript_dependencies_first demo_env_babel OTrue sf_scss
           [ELoadModule (js "babel"); EPrepareContent;
            ERunModule (js "babel")]).
  vm_compute. reflexivity.
Defined.

(** ** The sass transformer *)

(** Empty content and no prepended data: the transformer resolves with
    [options.data] as code and does not render. *)
Theorem sassTransformer_empty_input getIncludePaths importAny cache
    (filename : option jsstr) (options : sass_options) (i : sass_impl) :
  snd (sass_resolve_impl importAny cache options) = Ok i ->
  o_data options = None \/ o_data options = Some [] ->
  sassTransformer getIncludePaths importAny cache [] filename options
  = (fst (sass_resolve_impl importAny cache options),
     Ok {| out_code := o_data options; out_map := None;
           out_dependencies := None |}).
Proof.
  intros Hi Hd. unfold sassTransformer.
  destruct (sass_resolve_impl importAny cache options) as [c' impl].
  cbn [snd fst] in *. subst impl.
  rewrite bool_decide_eq_true_2; [done|].
  unfold sass_call_of, sass_data. cbn [sc_data].
  by destruct Hd as [-> | ->].
Qed.

Lemma sassTransformer_empty_input_witness :
  sassTransformer demo_includePaths (Ok demo_sass) None [] None
    (sass_opts (Some []) None None)
  = (Some demo_sass,
     Ok {| out_code := Some []; out_map := None; out_dependencies := None |}).
Proof.
  apply (sassTransformer_empty_input demo_includePaths (Ok demo_sass) None
           None (sass_opts (Some []) None None) demo_sass).
  - reflexivity.
  - right. reflexivity.
Defined.

(** A passed implementation leaves the module-level [sass] unchanged. *)
Theorem sassTransformer_passed_implementation_keeps_cache getIncludePaths
    importAny cache content (filename : option jsstr)
    (options : sass_options) (i : sass_impl) :
  o_implementation options = Some i ->
  fst (sassTransformer getIncludePaths importAny cache content filename
         options) = cache.
Proof.
  intros H. unfold sassTransformer, sass_resolve_impl. rewrite H. cbn.
  case_bool_decide; [done|]. by destruct (default false _).
Qed.

Lemma sassTransformer_passed_implementation_keeps_cache_witness :
  fst (sassTransformer demo_includePaths (Ok demo_sass) None (js "a{}") None
         (sass_opts None (Some demo_sass) (Some true))) = None.
Proof.
  apply (sassTransformer_passed_implementation_keeps_cache _ _ _ _ _ _
           demo_sass).
  reflexivity.
Defined.

(** Once the module-level [sass] is set, the import is not consulted and
    [sass] stays. *)
Theorem sassTransformer_cached_ignores_import getIncludePaths importAny
    importAny' (c : sass_impl) content (filename : option jsstr)
    (options : sass_options) :
  o_implementation options = None ->
  sassTransformer getIncludePaths importAny (Some c) content filename options
  = sassTransformer getIncludePaths importAny' (Some c) content filename
      options /\
  fst (sassTransformer getIncludePaths importAny (Some c) content filename
         options) = Some c.
Proof.
  intros H. unfold sassTransformer, sass_resolve_impl. rewrite H. cbn.
  split; [done|]. case_bool_decide; [done|]. by destruct (default false _).
Qed.

Lemma sassTransformer_cached_ignores_import_witness :
  sassTransformer demo_includePaths (Err (TransformerFailure (js "no sass")))
    (Some demo_sass) (js "a{}") None (sass_opts None None (Some true))
  = sassTransformer demo_includePaths (Ok demo_sass)
      (Some demo_sass) (js "a{}") None (sass_opts None None (Some true)) /\
  fst (sassTransformer demo_includePaths
         (Err (TransformerFailure (js "no sass"))) (Some demo_sass)
         (js "a{}") None (sass_opts None None (Some true))) = Some demo_sass.
Proof. apply sassTransformer_cached_ignores_import. reflexivity. Defined.

(** Without passed or cached implementation, a successful import is kept in
    the module-level [sass]; a failed one rejects. *)
Theorem sassTransformer_import_cached getIncludePaths importAny content
    (filename : option jsstr) (options : sass_options) :
  o_implementation options = None ->
  fst (sassTransformer getIncludePaths importAny None content filename options)
  = match importAny with Ok i => Some i | Err _ => None end /\
  (forall e, importAny = Err e ->
   snd (sassTransformer getIncludePaths importAny None content filename
          options) = Err e).
Proof.
  intros H. unfold sassTransformer, sass_resolve_impl. rewrite H.
  destruct importAny as [i|e]; cbn.
  - split; [|done]. case_bool_decide; [done|]. by destruct (default false _).
  - split; [done|]. by intros ? [= ->].
Qed.

Lemma sassTransformer_import_cached_witness :
  fst (sassTransformer demo_includePaths (Ok demo_sass) None (js "a{}") None
         (sass_opts None None None))
  = Some demo_sass /\
  (forall e, Ok demo_sass = Err e ->
   snd (sassTransformer demo_includePaths (Ok demo_sass) None (js "a{}")
          None (sass_opts None None None)) = Err e).
Proof. apply sassTransformer_import_cached. reflexivity. Defined.

(** The renderer receives the prepended data followed by the content, and
    [sourceMap] true unless the options set it. *)
Theorem sass_call_of_data_and_sourceMap getIncludePaths
    (options : sass_options) (content : jsstr) (filename : option jsstr) :
  sc_data (sass_call_of getIncludePaths options content filename)
  = default [] (o_data options) ++ content /\
  sc_other (sass_call_of getIncludePaths options content filename)
    !! js "sourceMap"
  = Some (default (JBool true) (o_other options !! js "sourceMap")).
Proof.
  unfold sass_call_of, sass_data, assign. cbn [sc_data sc_other]. split.
    by destruct (o_data options) as [[|x d]|].
  - destruct (o_other options !! js "sourceMap") eqn:Eo; simpl.
    + by rewrite (lookup_union_Some_l _ _ _ _ Eo).
    + rewrite lookup_union_r by done. apply lookup_singleton_eq.
Qed.

(** A failing render rejects with the renderer's error. *)
Theorem sassTransformer_render_error getIncludePaths importAny cache content
    (filename : option jsstr) (options : sass_options) (i : sass_impl)
    (e : error) :
  snd (sass_resolve_impl importAny cache options) = Ok i ->
  sc_data (sass_call_of getIncludePaths options content filename) <> [] ->
  (if default false (o_renderSync options) then impl_renderSync i
   else impl_render i) (sass_call_of getIncludePaths options content filename)
  = Err e ->
  snd (sassTransformer getIncludePaths importAny cache content filename
         options) = Err e.
Proof.
  intros Hi Hd Hr. unfold sassTransformer.
  destruct (sass_resolve_impl importAny cache options) as [c' impl].
  cbn [snd] in *. subst impl.
  rewrite bool_decide_eq_false_2 by done.
  destruct (default false (o_renderSync options)); cbn; by rewrite Hr.
Qed.

Lemma sassTransformer_render_error_witness :
  snd (sassTransformer demo_includePaths (Ok demo_sass) None (js "a{}")
         (Some (js "a.scss")) (sass_opts None None None))
  = Err (TransformerFailure (js "render failed")).
Proof.
  apply (sassTransformer_render_error _ _ _ _ _ _ demo_sass).
  - reflexivity.
  - vm_compute. discriminate.
  - reflexivity.
Defined.

